(** * Verification of [PreprocessingUtils] (src/utils/general_utils.py)

    A shallow embedding of the table-wrangling routines of the cost-benefit
    pipeline, and the properties their specification states about them.

    Conventions of the embedding:
    - a Python [str] is a [string] (the bytes of its UTF-8 encoding, whose
      byte order is the code-point order Python compares by);
    - a pandas column of strings that may hold NaN is an [option string];
    - a pandas [float64] cell is a primitive binary64 [float];
    - a pandas [int64] cell is a [Z], the wrap-around of its addition
      written out ([add_int64]);
    - a DataFrame is the list of its rows, a boolean mask selects rows by
      position (the masks of the source are always computed from the frame
      they index);
    - a Python exception is a value of [exn], raised through [result];
    - object identity (the frame an argument refers to, [.copy()], in-place
      assignment) is modelled by a store of frames, see [Store]. *)

From Stdlib Require Import ZArith String Ascii List DecimalString.
From Stdlib Require Import Floats.PrimFloat.
From stdpp Require Import base option list gmap strings sorting.

Open Scope string_scope.

(** ** Exceptions *)

Inductive exn : Type :=
  | ValueError (msg : string)
  | FileNotFoundError (msg : string)
  | TypeError (msg : string)
  | AttributeError (msg : string)
  | KeyError (msg : string)
  | YAMLError (msg : string)                 (* yaml.YAMLError *)
  | OSError (msg : string)
  | LibraryError (name msg : string).        (* any other exception of a library *)

(** [str(e)] *)
Definition exn_message (e : exn) : string :=
  match e with
  | ValueError m | FileNotFoundError m | TypeError m | AttributeError m
  | KeyError m | YAMLError m | OSError m | LibraryError _ m => m
  end.

Inductive result (A : Type) : Type :=
  | Ok (a : A)
  | Raise (e : exn).
Arguments Ok {A} a.
Arguments Raise {A} e.

Definition rbind {A B} (r : result A) (k : A -> result B) : result B :=
  match r with
  | Ok a => k a
  | Raise e => Raise e
  end.

(** [try: body except ...: handler] *)
Definition try_except {A} (body : result A) (handler : exn -> result A) : result A :=
  match body with
  | Ok a => Ok a
  | Raise e => handler e
  end.

Fixpoint rmap_list {A B} (f : A -> result B) (l : list A) : result (list B) :=
  match l with
  | [] => Ok []
  | x :: l' => rbind (f x) (fun y => rbind (rmap_list f l') (fun ys => Ok (y :: ys)))
  end.

(** [[x for x in l if f x]] where the test may raise. *)
Fixpoint rfilter {A} (f : A -> result bool) (l : list A) : result (list A) :=
  match l with
  | [] => Ok []
  | x :: l' =>
      rbind (f x) (fun b => rbind (rfilter f l') (fun xs => Ok (if b then x :: xs else xs)))
  end.

(** ** The Python string primitives the module calls *)

Module Py.

(** [s.split(sep)] for a one-character separator: never the empty list. *)
Fixpoint split (sep : ascii) (s : string) : list string :=
  match s with
  | "" => [""]
  | String c s' =>
      if Ascii.eqb c sep then "" :: split sep s'
      else match split sep s' with
           | tok :: toks => String c tok :: toks
           | [] => [String c ""]
           end
  end.

(** [sep.join(l)] *)
Definition join (sep : string) (l : list string) : string := String.concat sep l.

(** [k in x] on strings: [k] occurs in [x] as a substring. *)
Fixpoint contains (k x : string) : bool :=
  String.prefix k x ||
  match x with
  | "" => false
  | String _ x' => contains k x'
  end.

(** [any(k in x for k in ks)] *)
Definition any_in (ks : list string) (x : string) : bool :=
  existsb (fun k => contains k x) ks.

(** [s[n:]] *)
Fixpoint drop (n : nat) (s : string) : string :=
  match n, s with
  | O, _ => s
  | S n', String _ s' => drop n' s'
  | S _, "" => ""
  end.

(** The scan of [s.replace(old, new)] for a non-empty [old]: left to
    right, the occurrences found do not overlap ([skip] characters of the
    last occurrence are still to be passed over). *)
Fixpoint replace_scan (skip : nat) (old new s : string) : string :=
  match s with
  | "" => ""
  | String c s' =>
      match skip with
      | S n => replace_scan n old new s'
      | O =>
          if String.prefix old s
          then new +:+ replace_scan (String.length old - 1) old new s'
          else String c (replace_scan 0 old new s')
      end
  end.

(** With an empty [old], Python puts [new] around every character. *)
Fixpoint replace_empty (new s : string) : string :=
  match s with
  | "" => new
  | String c s' => new +:+ String c (replace_empty new s')
  end.

(** [s.replace(old, new)] *)
Definition replace (old new s : string) : string :=
  match old with
  | "" => replace_empty new s
  | _ => replace_scan 0 old new s
  end.

(** [str(z)] of an [int]. *)
Definition str_of_int (z : Z) : string := NilZero.string_of_int (Z.to_int z).

(** [s <= t] on strings, and [sorted] of a collection of strings. *)
Definition str_le (s t : string) : Prop := String.leb s t = true.

Global Instance str_le_dec s t : Decision (str_le s t).
Proof. unfold str_le. apply _. Defined.

Definition sorted (l : list string) : list string := merge_sort str_le l.

End Py.

(** ** [re.sub(pattern, '', t)] for the suffix pattern

    The pattern of the source is [(s1|...|s8)$]: an ordered alternation of
    literal suffixes followed by [$], which in Python (no MULTILINE flag)
    holds at the end of the string and also just before a newline that is
    the last character of the string. *)

Module Re.

Definition newline : string := String (ascii_of_nat 10) "".

(** [$] at the position where [rest] is what is left of the subject. *)
Definition dollar (rest : string) : bool :=
  String.eqb rest "" || String.eqb rest newline.

(** One alternative of the pattern, tried at the start of [t]. *)
Definition alt_matches (alt t : string) : bool :=
  String.prefix alt t && dollar (Py.drop (String.length alt) t).

(** The match starting at the start of [t], if any: alternatives are
    tried in order, the length of the text matched is returned. *)
Definition match_here (alts : list string) (t : string) : option nat :=
  String.length <$> find (fun alt => alt_matches alt t) alts.

(** [re.sub(pattern, '', t)]: every non-overlapping match, found from
    left to right, is replaced by the empty string. No alternative is
    empty, so no match is empty. *)
Fixpoint sub_scan (alts : list string) (skip : nat) (t : string) : string :=
  match t with
  | "" => ""
  | String c t' =>
      match skip with
      | S n => sub_scan alts n t'
      | O =>
          match match_here alts t with
          | Some n => sub_scan alts (n - 1) t'
          | None => String c (sub_scan alts 0 t')
          end
      end
  end.

Definition sub (alts : list string) (t : string) : string := sub_scan alts 0 t.

End Re.

(** ** Attribute tables and [remove_suffix_from_transformations] *)

Record attr_row : Type := mk_attr_row {
  attr_strategy_code : string;
  transformation_specification : option string;   (* [None] is NaN *)
  attr_other : list string                        (* the remaining columns *)
}.

Definition set_specification (r : attr_row) (s : option string) : attr_row :=
  {| attr_strategy_code := attr_strategy_code r;
     transformation_specification := s;
     attr_other := attr_other r |}.

Definition pipe : ascii := "|"%char.

Definition suffixes_to_remove : list string :=
  ["_LOW"; "_LOWEST"; "_HIGHEST"; "_HIGHER"; "_HIGH"; "_LOWER";
   "_FROMTECH"; "_URBPLAN"].

(** [re.sub(pattern, '', t)] of the source. *)
Definition clean_token (t : string) : string := Re.sub suffixes_to_remove t.

Definition clean_transformation_specification (specification : string) : string :=
  let transformations := Py.split pipe specification in
  let cleaned_transformations := map clean_token transformations in
  Py.join "|" cleaned_transformations.

(** [df[col].apply(clean_transformation_specification)]: on a NaN cell the
    function is called with a float, whose [.split] does not exist. *)
Definition apply_clean (cell : option string) : result (option string) :=
  match cell with
  | Some s => Ok (Some (clean_transformation_specification s))
  | None => Raise (AttributeError "'float' object has no attribute 'split'")
  end.

(** The frame [remove_suffix_from_transformations] returns, as a function of
    the frame it is given. *)
Definition remove_suffix_from_transformations (attr_df : list attr_row)
  : result (list attr_row) :=
  rbind (rmap_list (fun r => apply_clean (transformation_specification r)) attr_df)
        (fun col => Ok (zip_with set_specification attr_df col)).

(** ** A store of frames

    The frame-valued names of the source are references into a store; a
    call receives the reference of its argument. [copy] and every pandas
    operation that builds a frame allocate a fresh reference, an in-place
    assignment ([df[col] = ...], [df.loc[mask, col] = ...]) updates the
    frame its reference points to. *)

Module Store.
Section Store.
Context {T : Type}.

Definition M (X : Type) : Type := gmap nat T -> result X * gmap nat T.

Definition ret {X} (x : X) : M X := fun h => (Ok x, h).

Definition bind {X Y} (m : M X) (k : X -> M Y) : M Y :=
fun h => match m h with
         | (Ok x, h') => k x h'
         | (Raise e, h') => (Raise e, h')
         end.

(** A computation that touches no frame (it may raise). *)
Definition lift {X} (r : result X) : M X := fun h => (r, h).

(** A new object holding [v]. *)
Definition new (v : T) : M nat :=
fun h => let l := fresh (dom h) in (Ok l, <[l := v]> h).

(** The frame a reference points to. *)
Definition get (l : nat) : M T :=
fun h => match h !! l with
         | Some v => (Ok v, h)
         | None => (Raise (TypeError "not a DataFrame"), h)
         end.

(** In-place update of the frame at [l]. *)
Definition update (l : nat) (f : T -> T) : M unit :=
bind (get l) (fun v h => (Ok tt, <[l := f v]> h)).

(** [df.copy()] *)
Definition copy (l : nat) : M nat := bind (get l) new.

End Store.
End Store.

Notation "'let*' x ':=' m 'in' k" := (Store.bind m (fun x => k))
  (at level 10, x name, m at level 100, k at level 200).
Notation "'run' m 'then' k" := (Store.bind m (fun _ => k))
  (at level 10, m at level 100, k at level 200).

(** The store-passing form of [remove_suffix_from_transformations]. *)
Definition remove_suffix_from_transformations_st (attr_df : nat)
  : Store.M (T := list attr_row) nat :=
  let* df := Store.copy attr_df in
  let* cur := Store.get df in
  let* col := Store.lift
                (rmap_list (fun r => apply_clean (transformation_specification r)) cur) in
  run Store.update df (fun d => zip_with set_specification d col) then
  Store.ret df.

(** ** [check_missing_transformations] *)

(** What [print] receives: a text, or a text followed by a list object. *)
Inductive output : Type :=
  | Printed (text : string)
  | PrintedList (text : string) (items : list string).

(** A table as [to_csv(index=False)] writes it. *)
Record csv_table : Type := mk_csv {
  csv_header : list string;
  csv_rows : list (list string)
}.

Record world : Type := mk_world {
  stdout : list output;                 (* oldest first *)
  files : gmap string csv_table
}.

Definition print (o : output) (w : world) : world :=
  {| stdout := (stdout w ++ [o])%list; files := files w |}.

(** [Path(path).parent] for a relative path. *)
Definition parent_directory (path : string) : string :=
  match reverse (Py.split "/"%char path) with
  | _ :: (_ :: _) as parents => Py.join "/" (reverse parents)
  | _ => "."
  end.

(** A file system whose directories are [dirs] (and the current one):
    pandas refuses to write a file whose parent directory is missing. *)
Definition open_write_in (dirs : list string) (path : string) : result unit :=
  let parent := parent_directory path in
  if String.eqb parent "." || bool_decide (parent ∈ dirs) then Ok tt
  else Raise (OSError ("Cannot save file into a non-existent directory: '"
                       +:+ parent +:+ "'")).

Section CheckMissing.
(** Opening a path for writing: what the operating system answers (a
    missing parent directory, a refused permission, ... raise). *)
Variable open_write : string -> result unit.

(** [df.to_csv(path, index=False)]: the table is written when the path can
    be opened, and the exception of the opening is raised when it cannot. *)
Definition to_csv (path : string) (t : csv_table) (w : world) : result unit * world :=
  match open_write path with
  | Ok _ => (Ok tt, {| stdout := stdout w; files := <[path := t]> (files w) |})
  | Raise e => (Raise e, w)
  end.

(** [attributes_df['transformation_specification'].dropna()] *)
Definition dropna (col : list (option string)) : list string := omap id col.

Definition experiment_transformations (attributes_df : list attr_row) : gset string :=
  list_to_set
    (concat (map (Py.split pipe)
                 (dropna (map transformation_specification attributes_df)))).

Definition missing_transformations
    (attributes_df : list attr_row) (transformation_code : list string) : list string :=
  let tf_costs_transformations : gset string := list_to_set transformation_code in
  Py.sorted (elements (experiment_transformations attributes_df ∖ tf_costs_transformations)).

Definition missing_warning : string :=
  "The following transformations are not in the transformation_cost_definitions file. "
  +:+ "Please update it to avoid affecting the calculation of transformation costs:"
  +:+ Re.newline.

Definition report_path : string := "debug/missing_transformations_report.csv".

Definition check_missing_transformations
    (attributes_df : list attr_row) (transformation_code : list string)
    (w : world) : result unit * world :=
  let missing := missing_transformations attributes_df transformation_code in
  match missing with
  | _ :: _ =>
      let df := {| csv_header := ["missing_transformations"];
                   csv_rows := map (fun t => [t]) missing |} in
      let w := print (PrintedList missing_warning missing) w in
      let output_path := report_path in
      match to_csv output_path df w with
      | (Raise e, w) => (Raise e, w)
      | (Ok _, w) =>
          let w := print (Printed ("Missing transformations report saved to: "
                                   +:+ output_path)) w in
          (Ok tt, w)
      end
  | [] => (Ok tt, print (Printed "No missing transformations. OK!") w)
  end.
End CheckMissing.

(** ** [load_parameters_from_yaml] *)

(** What [yaml.safe_load] can return. *)
#[warnings="-register-all"]
Inductive yaml : Type :=
  | YNull
  | YBool (b : bool)
  | YInt (z : Z)
  | YFloat (f : float)
  | YStr (s : string)
  | YSeq (items : list yaml)
  | YMap (entries : gmap string yaml).

Definition required_keys : list string :=
  ["country_id"; "attr_primary_file_name"; "attr_strategy_file_name";
   "ssp_output_data_file_name"; "comparison_strategy_code";
   "transformation_names_url"].

(** [key in params] for a string [key]. *)
Definition py_in (key : string) (params : yaml) : result bool :=
  match params with
  | YMap entries => Ok (bool_decide (is_Some (entries !! key)))
  | YSeq items =>
      Ok (existsb (fun v => match v with YStr s => String.eqb s key | _ => false end) items)
  | YStr s => Ok (Py.contains key s)
  | YNull => Raise (TypeError "argument of type 'NoneType' is not iterable")
  | YBool _ => Raise (TypeError "argument of type 'bool' is not iterable")
  | YInt _ => Raise (TypeError "argument of type 'int' is not iterable")
  | YFloat _ => Raise (TypeError "argument of type 'float' is not iterable")
  end.

(** [params[key]] for a string [key]. *)
Definition py_getitem (params : yaml) (key : string) : result yaml :=
  match params with
  | YMap entries =>
      match entries !! key with
      | Some v => Ok v
      | None => Raise (KeyError key)
      end
  | YSeq _ => Raise (TypeError "list indices must be integers or slices, not str")
  | YStr _ => Raise (TypeError "string indices must be integers, not 'str'")
  | YNull => Raise (TypeError "'NoneType' object is not subscriptable")
  | YBool _ => Raise (TypeError "'bool' object is not subscriptable")
  | YInt _ => Raise (TypeError "'int' object is not subscriptable")
  | YFloat _ => Raise (TypeError "'float' object is not subscriptable")
  end.

(** [{k: v for (k, v) in kvs}] *)
Definition dict_of (kvs : list (string * yaml)) : gmap string yaml :=
  foldl (fun d kv => <[kv.1 := kv.2]> d) ∅ kvs.

Section LoadParameters.
(** The file system ([None]: no such file) and the YAML parser. *)
Variable fs : string -> option string.
Variable safe_load : string -> result yaml.

Definition open_read (path : string) : result string :=
  match fs path with
  | Some content => Ok content
  | None => Raise (FileNotFoundError ("No such file or directory: " +:+ path))
  end.

Definition load_parameters_from_yaml (yaml_file_path : string)
  : result (gmap string yaml) :=
  try_except
    (rbind (open_read yaml_file_path) (fun file =>
     rbind (safe_load file) (fun params =>
     rbind (rfilter (fun key => rbind (py_in key params) (fun b => Ok (negb b)))
                    required_keys) (fun missing_keys =>
     match missing_keys with
     | _ :: _ =>
         Raise (ValueError ("Missing required parameters in YAML file: "
                            +:+ Py.join ", " missing_keys))
     | [] =>
         rbind (rmap_list (fun key => rbind (py_getitem params key)
                                            (fun v => Ok (key, v)))
                          required_keys)
               (fun kvs => Ok (dict_of kvs))
     end))))
    (fun e =>
       match e with
       | FileNotFoundError _ =>
           Raise (FileNotFoundError
                    ("The specified YAML file was not found: " +:+ yaml_file_path))
       | YAMLError msg => Raise (ValueError ("Error parsing YAML file: " +:+ msg))
       | _ => Raise e
       end).
End LoadParameters.

(** ** [fetch_csv_from_github] and the strategy encoding *)

Record transformer_row : Type := mk_transformer_row {
  transformer_code : string;
  transformer_other : list string
}.

Definition raw_url_of (url : string) : string :=
  Py.replace "github.com" "raw.githubusercontent.com" (Py.replace "/blob/" "/" url).

Section Fetch.
(** [pd.read_csv] on a URL: what the remote side answers. *)
Variable read_csv : string -> result (list transformer_row).

Definition fetch_csv_from_github (url : string) (w : world)
  : result (option (list transformer_row)) * world :=
  let raw_url := raw_url_of url in
  (* try: *)
  let body : result (list transformer_row) * world :=
    match read_csv raw_url with
    | Raise e => (Raise e, w)
    | Ok df =>
        match df with
        | [] => (Raise (ValueError ("The CSV file fetched from " +:+ raw_url
                                    +:+ " is empty.")), w)
        | _ :: _ =>
            (Ok df, print (Printed ("Successfully fetched CSV file from: " +:+ raw_url)) w)
        end
    end in
  match body with
  | (Ok df, w) => (Ok (Some df), w)
  (* except Exception as e: *)
  | (Raise e, w) =>
      (Ok None,
       print (Printed ("Error fetching CSV file from " +:+ raw_url +:+ ": "
                       +:+ exn_message e)) w)
  end.

(** [l.remove(x)]: the first occurrence only. *)
Fixpoint list_remove (x : string) (l : list string) : list string :=
  match l with
  | [] => []
  | y :: l' => if String.eqb y x then l' else y :: list_remove x l'
  end.

Definition get_default_transformation_codes (transformer_df : list transformer_row)
  : list string :=
  let column_names := map transformer_code transformer_df in
  let column_names :=
    if existsb (String.eqb "TFR:BASE") column_names
    then list_remove "TFR:BASE" column_names
    else column_names in
  map (Py.replace "TFR:" "TX:") column_names.

(** The indicator frame: the [strategy_code] column and, per row, the
    cells under the transformation-code columns. *)
Record strategy_row : Type := mk_strategy_row {
  strategy_code_cell : string;
  cells : list Z
}.

Record strategy_frame : Type := mk_strategy_frame {
  columns : list string;
  rows : list strategy_row
}.

(** [df.loc[df['strategy_code'] == strategy_code, transformation] = 1] *)
Definition loc_set_one (column_names : list string)
    (strategy_code transformation : string) (df : list strategy_row)
  : list strategy_row :=
  map (fun r =>
         if String.eqb (strategy_code_cell r) strategy_code
         then {| strategy_code_cell := strategy_code_cell r;
                 cells := zip_with (fun label cell =>
                                      if String.eqb label transformation then 1%Z else cell)
                                   column_names (cells r) |}
         else r) df.

(** The body of the loop over [strategies_list]. *)
Definition mark_strategy (column_names : list string) (attr_data_df : list attr_row)
    (df : list strategy_row) (strategy_code : string) : list strategy_row :=
  let strategy_row := filter (fun r => attr_strategy_code r = strategy_code) attr_data_df in
  match strategy_row with
  | [] => df
  | first :: _ =>
      let transformations := transformation_specification first in
      match transformations with
      | None => df
      | Some transformations =>
          let transformation_list := Py.split pipe transformations in
          foldl (fun df transformation =>
                   if existsb (String.eqb transformation) column_names
                   then loc_set_one column_names strategy_code transformation df
                   else df)
                df transformation_list
      end
  end.

Definition build_attribute_strategy_code (url : string) (strategies_list : list string)
    (attr_data_df : list attr_row) (w : world) : result strategy_frame * world :=
  match fetch_csv_from_github url w with
  | (Raise e, w) => (Raise e, w)
  | (Ok None, w) => (Raise (TypeError "'NoneType' object is not subscriptable"), w)
  | (Ok (Some transformer_df), w) =>
      let column_names := get_default_transformation_codes transformer_df in
      let df := map (fun s => {| strategy_code_cell := s;
                                 cells := map (fun _ => 0%Z) column_names |})
                    strategies_list in
      let df := foldl (mark_strategy column_names attr_data_df) df strategies_list in
      (Ok {| columns := "strategy_code" :: column_names; rows := df |}, w)
  end.
End Fetch.

(** ** [add_total_tlu_calculation]

    The wide simulation table and the pandas operations applied to it are
    parameters: every one of them builds a new frame from its operands
    (none is called with [inplace=True]) and may raise. The identifier
    column list comes from [cb_config]. *)

Section TotalTlu.
Context {frame column : Type}.
Variable SSP_GLOBAL_SIMULATION_IDENTIFIERS : list string.
Variable select_columns : frame -> list string -> result frame.   (* df[[...]] *)
Variable melt : frame -> list string -> result frame.             (* df.melt(id_vars=) *)
Variable merge : frame -> frame -> list string -> result frame.   (* l.merge(right=, on=) *)
Variable get_column : frame -> string -> result column.           (* df[c] *)
Variable mul_columns : column -> column -> result column.         (* a * b *)
Variable set_column : string -> column -> frame -> frame.         (* df[c] = col *)
Variable groupby_sum : frame -> list string -> string -> result frame.
                                               (* df.groupby(keys).agg({c: sum}) *)
Variable rename_column : frame -> string -> string -> frame.      (* df.rename(columns=) *)
Variable reset_index : frame -> frame.                            (* df.reset_index() *)

Definition melt_id_vars : list string :=
  ["primary_id"; "time_period"; "region"; "strategy_code"; "future_id"].

Definition pop_lvst_columns (cols_to_keep : list string) : list string :=
  filter (fun i => Py.contains "pop_lvst" i = true) cols_to_keep.

(** The frame [add_total_tlu_calculation] returns, as a function of the
    frames it is given. *)
Definition add_total_tlu_calculation (df tlu_conversions_df : frame)
    (cols_to_keep : list string) : result frame :=
  let cb_input_df := df in
  rbind (select_columns cb_input_df
           (SSP_GLOBAL_SIMULATION_IDENTIFIERS ++ pop_lvst_columns cols_to_keep)%list)
    (fun pop_livestock =>
  rbind (melt pop_livestock melt_id_vars) (fun pop_livestock =>
  rbind (merge pop_livestock tlu_conversions_df ["variable"]) (fun pop_livestock =>
  rbind (get_column pop_livestock "value") (fun value =>
  rbind (get_column pop_livestock "TLU") (fun tlu =>
  rbind (mul_columns value tlu) (fun total_tlu =>
  let pop_livestock := set_column "total_tlu" total_tlu pop_livestock in
  rbind (groupby_sum pop_livestock SSP_GLOBAL_SIMULATION_IDENTIFIERS "total_tlu")
    (fun summed =>
  let pop_livestock_summarized :=
    reset_index (rename_column summed "total_tlu" "lvst_total_tlu") in
  merge cb_input_df pop_livestock_summarized SSP_GLOBAL_SIMULATION_IDENTIFIERS))))))).

(** Its store-passing form. *)
Definition add_total_tlu_calculation_st (df tlu_conversions_df : nat)
    (cols_to_keep : list string) : Store.M (T := frame) nat :=
  let* cb_input_df := Store.copy df in
  let* cur := Store.get cb_input_df in
  let* sel := Store.lift (select_columns cur
                (SSP_GLOBAL_SIMULATION_IDENTIFIERS ++ pop_lvst_columns cols_to_keep)%list) in
  let* pop_livestock := Store.new sel in
  let* cur := Store.get pop_livestock in
  let* molten := Store.lift (melt cur melt_id_vars) in
  let* pop_livestock := Store.new molten in
  let* cur := Store.get pop_livestock in
  let* tlu_conversions := Store.get tlu_conversions_df in
  let* merged := Store.lift (merge cur tlu_conversions ["variable"]) in
  let* pop_livestock := Store.new merged in
  let* cur := Store.get pop_livestock in
  let* value := Store.lift (get_column cur "value") in
  let* tlu := Store.lift (get_column cur "TLU") in
  let* total_tlu := Store.lift (mul_columns value tlu) in
  run Store.update pop_livestock (set_column "total_tlu" total_tlu) then
  let* cur := Store.get pop_livestock in
  let* summed := Store.lift
                   (groupby_sum cur SSP_GLOBAL_SIMULATION_IDENTIFIERS "total_tlu") in
  let* pop_livestock_summarized :=
    Store.new (reset_index (rename_column summed "total_tlu" "lvst_total_tlu")) in
  let* left := Store.get cb_input_df in
  let* right := Store.get pop_livestock_summarized in
  let* out := Store.lift (merge left right SSP_GLOBAL_SIMULATION_IDENTIFIERS) in
  Store.new out.
End TotalTlu.

(** ** Integer columns

    A pandas column of integers is an [int64] column: adding to it wraps
    around silently. The configured constants are taken in the [int64]
    range, where adding a Python [int] to the column is an [int64]
    addition. *)

Definition int64_min : Z := -9223372036854775808.
Definition int64_max : Z := 9223372036854775807.

Definition in_int64 (z : Z) : Prop := (int64_min <= z <= int64_max)%Z.

Definition wrap_int64 (z : Z) : Z :=
  ((z + 9223372036854775808) mod 18446744073709551616 - 9223372036854775808)%Z.

(** [a + b] on an [int64] column. *)
Definition add_int64 (a b : Z) : Z := wrap_int64 (a + b).

(** ** [perform_postprocessing] *)

Record result_row : Type := mk_result_row {
  strategy_code : string;
  variable : string;
  time_period : Z;
  value : float;
  result_other : list string       (* the remaining columns *)
}.

Definition set_value (r : result_row) (v : float) : result_row :=
  {| strategy_code := strategy_code r; variable := variable r;
     time_period := time_period r; value := v; result_other := result_other r |}.

Definition set_variable (r : result_row) (v : string) : result_row :=
  {| strategy_code := strategy_code r; variable := v;
     time_period := time_period r; value := value r; result_other := result_other r |}.

Definition set_time_period (r : result_row) (t : Z) : result_row :=
  {| strategy_code := strategy_code r; variable := variable r;
     time_period := t; value := value r; result_other := result_other r |}.

(** [(df["strategy_code"] == code) & df["variable"].apply(lambda x: any(k in x for k in ks))] *)
Definition cond_mask (code : string) (ks : list string) (df : list result_row) : list bool :=
  zip_with andb
    (map (fun r => String.eqb (strategy_code r) code) df)
    (map (fun r => Py.any_in ks (variable r)) df).

(** [df.loc[mask, "value"] = v] *)
Definition loc_assign (mask : list bool) (v : float) (df : list result_row)
  : list result_row :=
  zip_with (fun r (b : bool) => if b then set_value r v else r) df mask.

(** [df.loc[mask, "value"] *= v] *)
Definition loc_scale (mask : list bool) (v : float) (df : list result_row)
  : list result_row :=
  zip_with (fun r (b : bool) => if b then set_value r (PrimFloat.mul (value r) v) else r)
           df mask.

Definition transport_keys : list string := ["congestion"; "road_safety"].
Definition waso_keys : list string := ["cb:waso:technical_cost:waste_management"].

(** Lines 299-316 of the source: the three corrective rules. *)
Definition corrective_rules (df : list result_row) : list result_row :=
  let cond_transport_cb_issues_better_base :=
    cond_mask "PFLO:BETTER_BASE" transport_keys df in
  let cond_transport_cb_issues_supply_side_tech :=
    cond_mask "PFLO:SUPPLY_SIDE_TECH" transport_keys df in
  let df := loc_assign cond_transport_cb_issues_better_base 0%float df in
  let df := loc_assign cond_transport_cb_issues_supply_side_tech 0%float df in
  let cond_cut_ben_in_half_all_plur := cond_mask "PFLO:ALL_PLUR" transport_keys df in
  let cond_cut_ben_in_half_all_non_stopping_def_plur :=
    cond_mask "PFLO:ALL_NO_STOPPING_DEFORESTATION_PLUR" transport_keys df in
  let df := loc_scale cond_cut_ben_in_half_all_plur 0.5%float df in
  let df := loc_scale cond_cut_ben_in_half_all_non_stopping_def_plur 0.5%float df in
  let cond_waso_cb_issue := cond_mask "PFLO:SUPPLY_SIDE_TECH" waso_keys df in
  loc_assign cond_waso_cb_issue 0%float df.

Section Postprocessing.
(** The two time constants of [cb_config]. *)
Variable SSP_GLOBAL_TIME_PERIOD_TX_START : Z.
Variable SSP_GLOBAL_TIME_PERIOD_0 : Z.

(** [df.query("time_period<TX_START")]: a new frame. *)
Definition query_pre (df : list result_row) : list result_row :=
  filter (fun r => (time_period r < SSP_GLOBAL_TIME_PERIOD_TX_START)%Z) df.

(** [res["variable"] = res["variable"] + "_shifted" + (res["time_period"] + T0).astype(str)] *)
Definition rename_shifted (res : list result_row) : list result_row :=
  let col := map (fun r => variable r +:+ "_shifted"
                           +:+ Py.str_of_int
                                 (add_int64 (time_period r) SSP_GLOBAL_TIME_PERIOD_0))
                 res in
  zip_with set_variable res col.

(** [res["time_period"] = res["time_period"] + TX_START] *)
Definition shift_time_period (res : list result_row) : list result_row :=
  let col := map (fun r => add_int64 (time_period r) SSP_GLOBAL_TIME_PERIOD_TX_START)
                 res in
  zip_with set_time_period res col.

(** [df["time_period"] < TX_START] *)
Definition pre_mask (df : list result_row) : list bool :=
  map (fun r => bool_decide (time_period r < SSP_GLOBAL_TIME_PERIOD_TX_START)%Z) df.

(** Lines 319-329 of the source: the time shift. *)
Definition time_shift (df : list result_row) : list result_row :=
  let res_pre2025 := query_pre df in
  let res_pre2025 := rename_shifted res_pre2025 in
  let res_pre2025 := shift_time_period res_pre2025 in
  let df := (df ++ res_pre2025)%list in
  loc_assign (pre_mask df) 0%float df.

(** The frame [perform_postprocessing] returns, as a function of the
    frame it is given. *)
Definition perform_postprocessing (results_all_pp : list result_row)
  : list result_row :=
  time_shift (corrective_rules results_all_pp).

(** Its store-passing form, statement by statement. *)
Definition perform_postprocessing_st (results_all_pp : nat)
  : Store.M (T := list result_row) nat :=
  let* df := Store.copy results_all_pp in
  let* cur := Store.get df in
  let cond_transport_cb_issues_better_base :=
    cond_mask "PFLO:BETTER_BASE" transport_keys cur in
  let cond_transport_cb_issues_supply_side_tech :=
    cond_mask "PFLO:SUPPLY_SIDE_TECH" transport_keys cur in
  run Store.update df (loc_assign cond_transport_cb_issues_better_base 0%float) then
  run Store.update df (loc_assign cond_transport_cb_issues_supply_side_tech 0%float) then
  let* cur := Store.get df in
  let cond_cut_ben_in_half_all_plur := cond_mask "PFLO:ALL_PLUR" transport_keys cur in
  let cond_cut_ben_in_half_all_non_stopping_def_plur :=
    cond_mask "PFLO:ALL_NO_STOPPING_DEFORESTATION_PLUR" transport_keys cur in
  run Store.update df (loc_scale cond_cut_ben_in_half_all_plur 0.5%float) then
  run Store.update df (loc_scale cond_cut_ben_in_half_all_non_stopping_def_plur 0.5%float) then
  let* cur := Store.get df in
  let cond_waso_cb_issue := cond_mask "PFLO:SUPPLY_SIDE_TECH" waso_keys cur in
  run Store.update df (loc_assign cond_waso_cb_issue 0%float) then
  let* results_all_pp_before_shift := Store.copy df in
  let* cur := Store.get df in
  let* res_pre2025 := Store.new (query_pre cur) in
  run Store.update res_pre2025 rename_shifted then
  run Store.update res_pre2025 shift_time_period then
  let* l := Store.get df in
  let* r := Store.get res_pre2025 in
  let* df := Store.new (l ++ r)%list in
  let* cur := Store.get df in
  run Store.update df (loc_assign (pre_mask cur) 0%float) then
  Store.ret df.
End Postprocessing.

(** * Definitions the properties are stated with *)

(** The substring test shared by rules 1 and 2. *)
Definition transport_test (v : string) : bool :=
  Py.contains "congestion" v || Py.contains "road_safety" v.

(** The three rules as the specification words them. *)
Definition rule_1 (r : result_row) : result_row :=
  if (String.eqb (strategy_code r) "PFLO:BETTER_BASE"
      || String.eqb (strategy_code r) "PFLO:SUPPLY_SIDE_TECH")
     && transport_test (variable r)
  then set_value r 0%float else r.

Definition rule_2 (r : result_row) : result_row :=
  if (String.eqb (strategy_code r) "PFLO:ALL_PLUR"
      || String.eqb (strategy_code r) "PFLO:ALL_NO_STOPPING_DEFORESTATION_PLUR")
     && transport_test (variable r)
  then set_value r (PrimFloat.mul (value r) 0.5%float) else r.

Definition rule_3 (r : result_row) : result_row :=
  if String.eqb (strategy_code r) "PFLO:SUPPLY_SIDE_TECH"
     && Py.contains "cb:waso:technical_cost:waste_management" (variable r)
  then set_value r 0%float else r.

(** A row none of the three rules applies to. *)
Definition matches_no_rule (r : result_row) : bool :=
  negb ((String.eqb (strategy_code r) "PFLO:BETTER_BASE"
         || String.eqb (strategy_code r) "PFLO:SUPPLY_SIDE_TECH"
         || String.eqb (strategy_code r) "PFLO:ALL_PLUR"
         || String.eqb (strategy_code r) "PFLO:ALL_NO_STOPPING_DEFORESTATION_PLUR")
        && transport_test (variable r))
  && negb (String.eqb (strategy_code r) "PFLO:SUPPLY_SIDE_TECH"
           && Py.contains "cb:waso:technical_cost:waste_management" (variable r)).

(** The value of a row before [TX_START] is forced to 0. *)
Definition zero_before (TX_START : Z) (r : result_row) : result_row :=
  if bool_decide (time_period r < TX_START)%Z then set_value r 0%float else r.

(** The duplicate appended for a row before [TX_START], with the sums
    taken in the integers. *)
Definition shifted_copy (TX_START TIME_PERIOD_0 : Z) (r : result_row) : result_row :=
  {| strategy_code := strategy_code r;
     variable := variable r +:+ "_shifted"
                 +:+ Py.str_of_int (time_period r + TIME_PERIOD_0);
     time_period := time_period r + TX_START;
     value := value r;
     result_other := result_other r |}.

(** The duplicate as the code builds it, with the sums of the [int64]
    column. *)
Definition shifted_copy_int64 (TX_START TIME_PERIOD_0 : Z) (r : result_row)
  : result_row :=
  {| strategy_code := strategy_code r;
     variable := variable r +:+ "_shifted"
                 +:+ Py.str_of_int (add_int64 (time_period r) TIME_PERIOD_0);
     time_period := add_int64 (time_period r) TX_START;
     value := value r;
     result_other := result_other r |}.

(** Neither sum of the time shift leaves the [int64] range on a row before
    [TX_START]. *)
Definition shift_in_range (TX_START TIME_PERIOD_0 : Z) (r : result_row) : Prop :=
  (time_period r < TX_START ->
   time_period r + TX_START <= int64_max /\ time_period r + TIME_PERIOD_0 <= int64_max)%Z.

(** [c] occurs in [s]. *)
Fixpoint has_char (c : ascii) (s : string) : bool :=
  match s with
  | "" => false
  | String a s' => Ascii.eqb a c || has_char c s'
  end.

(** [suf] is the end of [s] and shorter than [s]. *)
Fixpoint proper_suffix (suf s : string) : bool :=
  match s with
  | "" => false
  | String _ s' => String.eqb suf s' || proper_suffix suf s'
  end.

(** [t] ends in one of the alternatives, at its end or just before a
    newline that ends it: the pattern matches somewhere in [t]. *)
Definition ends_in_alt (alts : list string) (t : string) : Prop :=
  exists base alt,
    In alt alts /\ (t = base +:+ alt \/ t = base +:+ alt +:+ Re.newline).

(** A token the pattern of the source matches somewhere: it ends in a known
    suffix, possibly followed by a final newline. *)
Definition ends_in_known_suffix (t : string) : Prop :=
  ends_in_alt suffixes_to_remove t.

(** What a table-transforming operation owes the frame it is given: every
    frame bound before the call is bound to the same value after it, and
    the result is a frame at a location that was free before the call,
    holding [out]; when the operation raises, [out] is the exception. *)
Definition returns_modified_copy {T} (m : Store.M (T := T) nat) (out : result T)
    (h : gmap nat T) : Prop :=
  h ⊆ (m h).2 /\
  match (m h).1, out with
  | Ok l, Ok frame => h !! l = None /\ (m h).2 !! l = Some frame
  | Raise e, Raise e' => e = e'
  | _, _ => False
  end.



(** A token used by the attribute table: it occurs in the split of a
    non-null specification. *)
Definition used_token (attributes_df : list attr_row) (t : string) : Prop :=
  exists r spec,
    In r attributes_df /\ transformation_specification r = Some spec
    /\ In t (Py.split pipe spec).

(** The specification the loop reads for a strategy: that of the first
    attribute row carrying its code ([None] when there is no such row or
    the cell is NaN). *)
Definition strategy_specification (attr_data_df : list attr_row) (s : string)
  : option string :=
  match filter (fun r => attr_strategy_code r = s) attr_data_df with
  | [] => None
  | first :: _ => transformation_specification first
  end.

(** The strategy applies the transformation code. *)
Definition applies (attr_data_df : list attr_row) (s code : string) : bool :=
  match strategy_specification attr_data_df s with
  | Some spec => existsb (String.eqb code) (Py.split pipe spec)
  | None => false
  end.

(** The indicator frame of a relation between strategies and codes. *)
Definition indicator_rows (column_names strategies_list : list string)
    (P : string -> string -> bool) : list strategy_row :=
  map (fun s => {| strategy_code_cell := s;
                   cells := map (fun c => if P s c then 1%Z else 0%Z) column_names |})
      strategies_list.

(** * Further functions of the module *)

(** ** [get_cols_to_keep]

    The three patterns of the source are made of literal characters and
    [.*] only. [re.match] anchors a pattern at the start of the string and
    lets anything follow; [.] matches any character but a newline. *)

Module Rx.

Inductive item : Type :=
  | Lit (s : string)     (* a run of literal characters *)
  | DotStar.             (* [.*] *)

(** [s] without its prefix [l], when it has it. *)
Fixpoint strip_prefix (l s : string) : option string :=
  match l with
  | "" => Some s
  | String a l' =>
      match s with
      | "" => None
      | String b s' => if Ascii.eqb a b then strip_prefix l' s' else None
      end
  end.

(** [re.match(pattern, s) is not None]: some way of matching the items in
    sequence from the start of [s] exists ([.*] tries every newline-free
    stretch). *)
Fixpoint rmatch (p : list item) : string -> bool :=
  match p with
  | [] => fun _ => true
  | Lit l :: p' =>
      fun s => match strip_prefix l s with
               | Some rest => rmatch p' rest
               | None => false
               end
  | DotStar :: p' =>
      fix star (s : string) : bool :=
        rmatch p' s ||
        match s with
        | "" => false
        | String c s' => if Ascii.eqb c (ascii_of_nat 10) then false else star s'
        end
  end.

End Rx.

(** ['totalvalue.*furnace_gas'] *)
Definition furnace_gas_pattern : list Rx.item :=
  [Rx.Lit "totalvalue"; Rx.DotStar; Rx.Lit "furnace_gas"].

(** ['totalvalue_.*_fuel_consumed_.*_fuel_crude'] *)
Definition fuel_crude_pattern : list Rx.item :=
  [Rx.Lit "totalvalue_"; Rx.DotStar; Rx.Lit "_fuel_consumed_"; Rx.DotStar;
   Rx.Lit "_fuel_crude"].

(** ['totalvalue_.*_fuel_consumed_.*_fuel_electricity'] *)
Definition fuel_electricity_pattern : list Rx.item :=
  [Rx.Lit "totalvalue_"; Rx.DotStar; Rx.Lit "_fuel_consumed_"; Rx.DotStar;
   Rx.Lit "_fuel_electricity"].

Definition get_cols_to_keep (col_names : list string) : list string :=
  let cols_to_keep :=
    List.filter (fun string => negb (Rx.rmatch furnace_gas_pattern string)) col_names in
  let cols_to_keep :=
    List.filter (fun string => negb (Rx.rmatch fuel_crude_pattern string)) cols_to_keep in
  let cols_to_keep :=
    List.filter (fun string => negb (Rx.rmatch fuel_electricity_pattern string))
                cols_to_keep in
  cols_to_keep.

(** ** [build_strategy_cost_instructions] *)

Record instruction_row (C : Type) : Type := mk_instruction_row {
  instruction_strategy_code : string;
  comparison_code : C;                       (* a [str] or an [int] *)
  evaluate_system_costs : Z;
  evaluate_transformation_costs : Z
}.
Arguments mk_instruction_row {C} _ _ _ _.
Arguments instruction_strategy_code {C} _.
Arguments comparison_code {C} _.
Arguments evaluate_system_costs {C} _.
Arguments evaluate_transformation_costs {C} _.

(** [pd.DataFrame({...})]: the list gives the rows, the scalars are
    repeated on each of them. *)
Definition build_strategy_cost_instructions {C} (strategies_list : list string)
    (comparison : C) : list (instruction_row C) :=
  map (fun s => {| instruction_strategy_code := s;
                   comparison_code := comparison;
                   evaluate_system_costs := 1;
                   evaluate_transformation_costs := 1 |})
      strategies_list.

(** * Definitions the further properties are stated with *)

(** What a pattern matches, said without the matcher: the literals occur in
    order from the start of the string, separated by newline-free
    stretches, and anything may follow. *)
Fixpoint denotes (p : list Rx.item) (s : string) : Prop :=
  match p with
  | [] => True
  | Rx.Lit l :: p' => exists rest, s = l +:+ rest /\ denotes p' rest
  | Rx.DotStar :: p' =>
      exists mid rest,
        s = mid +:+ rest /\ has_char (ascii_of_nat 10) mid = false /\ denotes p' rest
  end.

(** A column [get_cols_to_keep] drops. *)
Definition excluded_column (name : string) : bool :=
  Rx.rmatch furnace_gas_pattern name
  || Rx.rmatch fuel_crude_pattern name
  || Rx.rmatch fuel_electricity_pattern name.

(** The columns of a result row that [perform_postprocessing] may not
    change on an original row. *)
Definition row_identity (r : result_row) : string * string * Z * list string :=
  (strategy_code r, variable r, time_period r, result_other r).

(** A row of an attribute table with its specification replaced. *)
Definition cleaned_row (r : attr_row) : attr_row :=
  set_specification r
    (option_map clean_transformation_specification (transformation_specification r)).

(** A well-formed transformer code: "TFR:" followed by a name in which
    "TFR:" does not occur. *)
Definition well_formed_code (code : string) : Prop :=
  exists name, code = "TFR:" +:+ name /\ Py.contains "TFR:" name = false.

(** * Properties *)

(** ** Columns computed from the frame they are assigned to *)

Lemma zip_with_map_self {A B C} (g : A -> B -> C) (f : A -> B) (l : list A) :
  zip_with g l (map f l) = map (fun x => g x (f x)) l.
Proof. induction l as [|x l IH]; simpl; [reflexivity | by rewrite IH]. Qed.

Lemma zip_with_map_both {A B C D} (g : B -> C -> D) (f1 : A -> B) (f2 : A -> C)
    (l : list A) :
  zip_with g (map f1 l) (map f2 l) = map (fun x => g (f1 x) (f2 x)) l.
Proof. induction l as [|x l IH]; simpl; [reflexivity | by rewrite IH]. Qed.

(** ** The corrective rules of [perform_postprocessing], row by row *)

Lemma loc_assign_rows (c : result_row -> bool) v df :
  loc_assign (map c df) v df = map (fun r => if c r then set_value r v else r) df.
Proof.
  unfold loc_assign.
  exact (zip_with_map_self (fun r (b : bool) => if b then set_value r v else r) c df).
Qed.

Lemma any_in_transport v : Py.any_in transport_keys v = transport_test v.
Proof. unfold Py.any_in, transport_keys, transport_test. simpl. by rewrite orb_false_r. Qed.

Lemma any_in_waso v :
  Py.any_in waso_keys v = Py.contains "cb:waso:technical_cost:waste_management" v.
Proof. unfold Py.any_in, waso_keys. simpl. by rewrite orb_false_r. Qed.

(** The masks are positional, so the rules act on each row on its own. *)
Lemma corrective_rules_cons r df :
  corrective_rules (r :: df) = (corrective_rules [r] ++ corrective_rules df)%list.
Proof. reflexivity. Qed.

Lemma corrective_rules_row r :
  corrective_rules [r] = [rule_3 (rule_2 (rule_1 r))].
Proof.
  unfold corrective_rules, cond_mask, loc_assign, loc_scale.
  cbn [zip_with map]. f_equal.
  unfold rule_3, rule_2, rule_1.
  rewrite <- !any_in_transport, <- !any_in_waso.
  destruct (String.eqb (strategy_code r) "PFLO:BETTER_BASE") eqn:E1;
  destruct (String.eqb (strategy_code r) "PFLO:SUPPLY_SIDE_TECH") eqn:E2;
  destruct (Py.any_in transport_keys (variable r)) eqn:E3;
  destruct (String.eqb (strategy_code r) "PFLO:ALL_PLUR") eqn:E4;
  destruct (String.eqb (strategy_code r) "PFLO:ALL_NO_STOPPING_DEFORESTATION_PLUR") eqn:E5;
  destruct (Py.any_in waso_keys (variable r)) eqn:E6;
  try (apply String.eqb_eq in E4, E5; congruence);
  repeat (cbn [andb orb strategy_code variable value set_value];
          rewrite ?E1, ?E2, ?E3, ?E4, ?E5, ?E6);
  reflexivity.
Qed.

Lemma corrective_rules_rows df :
  corrective_rules df = map (fun r => rule_3 (rule_2 (rule_1 r))) df.
Proof.
  induction df as [|r df IH]; [reflexivity|].
  rewrite corrective_rules_cons, corrective_rules_row, IH. reflexivity.
Qed.

(** ** The time shift, row by row *)

Section PostprocessingFacts.
Variables TX_START TIME_PERIOD_0 : Z.

Lemma shift_rows res :
  shift_time_period TX_START (rename_shifted TIME_PERIOD_0 res)
  = map (shifted_copy_int64 TX_START TIME_PERIOD_0) res.
Proof.
  unfold shift_time_period, rename_shifted.
  rewrite !zip_with_map_self, map_map. reflexivity.
Qed.

Lemma time_shift_rows df :
  time_shift TX_START TIME_PERIOD_0 df =
  (map (zero_before TX_START) df
   ++ map (zero_before TX_START)
          (map (shifted_copy_int64 TX_START TIME_PERIOD_0) (query_pre TX_START df)))%list.
Proof.
  unfold time_shift, pre_mask.
  rewrite shift_rows, loc_assign_rows, map_app. reflexivity.
Qed.

Lemma corrective_rules_time_period df :
  map time_period (corrective_rules df) = map time_period df.
Proof.
  rewrite corrective_rules_rows, map_map. apply map_ext. intros r.
  unfold rule_3, rule_2, rule_1.
  repeat match goal with |- context [if ?b then _ else _] => destruct b end;
    reflexivity.
Qed.

Lemma wrap_int64_in_range z : in_int64 z -> wrap_int64 z = z.
Proof.
  unfold in_int64, int64_min, int64_max, wrap_int64. intros H.
  rewrite Z.mod_small by lia. lia.
Qed.

(** Without overflow the copy the code builds is the copy with the plain
    sums. *)
Lemma shifted_copy_int64_plain r :
  in_int64 (time_period r + TX_START) -> in_int64 (time_period r + TIME_PERIOD_0) ->
  shifted_copy_int64 TX_START TIME_PERIOD_0 r = shifted_copy TX_START TIME_PERIOD_0 r.
Proof.
  intros H1 H2. unfold shifted_copy_int64, shifted_copy, add_int64.
  by rewrite !wrap_int64_in_range.
Qed.

Lemma shifted_copy_kept (res : list result_row) :
  Forall (fun r => (0 <= time_period r)%Z) res ->
  map (zero_before TX_START) (map (shifted_copy TX_START TIME_PERIOD_0) res)
  = map (shifted_copy TX_START TIME_PERIOD_0) res.
Proof.
  intros H. rewrite <- (map_id (map (shifted_copy TX_START TIME_PERIOD_0) res)) at 2.
  apply map_ext_Forall. rewrite Forall_map.
  eapply Forall_impl; [exact H|]. intros r Hr. unfold zero_before.
  rewrite bool_decide_eq_false_2; [reflexivity|]. simpl in *. lia.
Qed.
End PostprocessingFacts.

Lemma matches_no_rule_untouched r :
  matches_no_rule r = true -> rule_3 (rule_2 (rule_1 r)) = r.
Proof.
  unfold matches_no_rule, rule_3, rule_2, rule_1.
  destruct (String.eqb (strategy_code r) "PFLO:BETTER_BASE") eqn:E1;
  destruct (String.eqb (strategy_code r) "PFLO:SUPPLY_SIDE_TECH") eqn:E2;
  destruct (String.eqb (strategy_code r) "PFLO:ALL_PLUR") eqn:E3;
  destruct (String.eqb (strategy_code r) "PFLO:ALL_NO_STOPPING_DEFORESTATION_PLUR") eqn:E4;
  destruct (transport_test (variable r)) eqn:E5;
  destruct (Py.contains "cb:waso:technical_cost:waste_management" (variable r)) eqn:E6;
  cbn [andb orb negb]; intros H; try discriminate H;
  repeat (cbn [andb orb strategy_code variable value set_value];
          rewrite ?E1, ?E2, ?E3, ?E4, ?E5, ?E6);
  reflexivity.
Qed.

Lemma perform_postprocessing_late_row TX T0 r :
  (TX <= time_period r)%Z ->
  perform_postprocessing TX T0 [r] = [rule_3 (rule_2 (rule_1 r))].
Proof.
  intros H. unfold perform_postprocessing.
  rewrite corrective_rules_row, time_shift_rows. unfold query_pre.
  assert (Ht : time_period (rule_3 (rule_2 (rule_1 r))) = time_period r).
  { unfold rule_3, rule_2, rule_1.
    repeat match goal with |- context [if ?b then _ else _] => destruct b end;
      reflexivity. }
  rewrite filter_cons_False by (rewrite Ht; lia).
  rewrite filter_nil. cbn [map app]. unfold zero_before.
  rewrite bool_decide_eq_false_2 by (rewrite Ht; lia). reflexivity.
Qed.

(** C1. [perform_postprocessing] applies the three corrective rules in
    order, each to the rows its condition selects: rule 1 zeroes [value]
    for BETTER_BASE / SUPPLY_SIDE_TECH rows whose variable contains
    "congestion" or "road_safety", rule 2 halves it for ALL_PLUR /
    ALL_NO_STOPPING_DEFORESTATION_PLUR rows passing the same test, rule 3
    zeroes it for SUPPLY_SIDE_TECH rows of the waste-management cost; the
    time shift then runs on their result. A BETTER_BASE row
    "congestion_benefit" of value 100 at or after [TX_START] ends with value
    0, the same row under ALL_PLUR with value 50, and a row no condition
    selects leaves the three rules as it entered them. *)
Theorem perform_postprocessing_corrective_rules
    (TX_START TIME_PERIOD_0 : Z) (df : list result_row)
    (tp : Z) (other : list string) :
  (TX_START <= tp)%Z ->
  corrective_rules df = map (fun r => rule_3 (rule_2 (rule_1 r))) df
  /\ perform_postprocessing TX_START TIME_PERIOD_0 df
     = time_shift TX_START TIME_PERIOD_0 (map (fun r => rule_3 (rule_2 (rule_1 r))) df)
  /\ perform_postprocessing TX_START TIME_PERIOD_0
       [mk_result_row "PFLO:BETTER_BASE" "congestion_benefit" tp 100%float other]
     = [mk_result_row "PFLO:BETTER_BASE" "congestion_benefit" tp 0%float other]
  /\ perform_postprocessing TX_START TIME_PERIOD_0
       [mk_result_row "PFLO:ALL_PLUR" "congestion_benefit" tp 100%float other]
     = [mk_result_row "PFLO:ALL_PLUR" "congestion_benefit" tp 50%float other]
  /\ (forall (i : nat) (r : result_row),
        df !! i = Some r -> matches_no_rule r = true ->
        corrective_rules df !! i = Some r).
Proof.
  intros Htp. split; [apply corrective_rules_rows|].
  split; [unfold perform_postprocessing; by rewrite corrective_rules_rows|].
  split; [|split].
  - rewrite perform_postprocessing_late_row by exact Htp. vm_compute. reflexivity.
  - rewrite perform_postprocessing_late_row by exact Htp. vm_compute. reflexivity.
  - intros i r Hi Hr. rewrite corrective_rules_rows.
    change (map ?f df) with (f <$> df).
    rewrite list_lookup_fmap, Hi. simpl. f_equal.
    by apply matches_no_rule_untouched.
Qed.

Lemma perform_postprocessing_corrective_rules_witness :
  (10 <= 12)%Z /\
  perform_postprocessing 10 2015
    [mk_result_row "PFLO:ALL_PLUR" "congestion_benefit" 12 100%float []]
  = [mk_result_row "PFLO:ALL_PLUR" "congestion_benefit" 12 50%float []].
Proof.
  split; [lia|].
  apply (perform_postprocessing_corrective_rules 10 2015 [] 12 []). lia.
Defined.

(** The corrective rules keep what is known of the time periods. *)
Lemma corrective_rules_Forall_time_period (Q : Z -> Prop) df :
  Forall (fun r => Q (time_period r)) df ->
  Forall (fun r => Q (time_period r)) (corrective_rules df).
Proof.
  intros H. apply Forall_map with (f := time_period) (P := Q).
  change (time_period <$> corrective_rules df)
    with (map time_period (corrective_rules df)).
  rewrite corrective_rules_time_period.
  change (map time_period df) with (time_period <$> df). by apply Forall_map.
Qed.

(** C2 (as the code has it). With [TX_START] and [TIME_PERIOD_0] in the
    [int64] range, on a table whose time periods are all non-negative and
    on which neither [time_period + TX_START] nor
    [time_period + TIME_PERIOD_0] overflows [int64] for a row before
    [TX_START], the final rule of [perform_postprocessing] appends, for
    each row before [TX_START] (in table order), one copy whose variable is
    the original followed by "_shifted" and the decimal of
    [time_period + TIME_PERIOD_0], whose time period is moved forward by
    [TX_START] and whose value is the one rules 1-3 left; it then zeroes
    the value of the original rows before [TX_START] and of no other row:
    no appended copy lies before [TX_START], and a row at or after
    [TX_START] is neither copied nor changed. *)
Theorem perform_postprocessing_time_shift
    (TX_START TIME_PERIOD_0 : Z) (df : list result_row) :
  in_int64 TX_START -> in_int64 TIME_PERIOD_0 ->
  Forall (fun r => (0 <= time_period r)%Z) df ->
  Forall (shift_in_range TX_START TIME_PERIOD_0) df ->
  let corrected := corrective_rules df in
  let copies := map (shifted_copy TX_START TIME_PERIOD_0)
                    (filter (fun r => (time_period r < TX_START)%Z) corrected) in
  perform_postprocessing TX_START TIME_PERIOD_0 df
  = (map (zero_before TX_START) corrected ++ copies)%list
  /\ Forall (fun r => (TX_START <= time_period r)%Z) copies
  /\ (forall r, (TX_START <= time_period r)%Z -> zero_before TX_START r = r)
  /\ (forall r, (time_period r < TX_START)%Z ->
                zero_before TX_START r = set_value r 0%float).
Proof.
  intros HTX HT0 Hpos Hrange corrected copies.
  assert (Hc : Forall (fun r => (0 <= time_period r)%Z) corrected).
  { by apply (corrective_rules_Forall_time_period (fun t => (0 <= t)%Z)). }
  assert (Hr : Forall (shift_in_range TX_START TIME_PERIOD_0) corrected).
  { by apply (corrective_rules_Forall_time_period
                (fun t => (t < TX_START ->
                           t + TX_START <= int64_max /\ t + TIME_PERIOD_0 <= int64_max)%Z)). }
  assert (Hf : Forall (fun r => (0 <= time_period r)%Z)
                 (filter (fun r => (time_period r < TX_START)%Z) corrected)).
  { apply Forall_forall. intros r [_ Hin]%list_elem_of_filter.
    revert r Hin. by apply Forall_forall. }
  assert (Hplain :
            map (shifted_copy_int64 TX_START TIME_PERIOD_0)
                (filter (fun r => (time_period r < TX_START)%Z) corrected)
            = copies).
  { unfold copies. apply map_ext_Forall, Forall_forall.
    intros r [Hearly Hin]%list_elem_of_filter.
    rewrite Forall_forall in Hc, Hr. specialize (Hc r Hin).
    destruct (Hr r Hin Hearly) as [H1 H2].
    unfold in_int64, int64_min, int64_max in *.
    apply shifted_copy_int64_plain; unfold in_int64, int64_min, int64_max; lia. }
  split; [|split; [|split]].
  - unfold perform_postprocessing. fold corrected.
    rewrite time_shift_rows. unfold query_pre. rewrite Hplain. unfold copies.
    rewrite shifted_copy_kept by exact Hf. reflexivity.
  - unfold copies. change (map ?f ?l) with (f <$> l). rewrite Forall_map.
    eapply Forall_impl; [exact Hf|]. intros r Hr'. simpl in *. lia.
  - intros r Hr'. unfold zero_before. by rewrite bool_decide_eq_false_2 by lia.
  - intros r Hr'. unfold zero_before. by rewrite bool_decide_eq_true_2 by lia.
Qed.

Lemma perform_postprocessing_time_shift_witness :
  perform_postprocessing 10 2015
    [mk_result_row "PFLO:ALL_PLUR" "congestion_benefit" 3 100%float [];
     mk_result_row "S" "cost" 11 7%float []]
  = [mk_result_row "PFLO:ALL_PLUR" "congestion_benefit" 3 0%float [];
     mk_result_row "S" "cost" 11 7%float [];
     mk_result_row "PFLO:ALL_PLUR" "congestion_benefit_shifted2018" 13 50%float []].
Proof.
  refine (eq_trans
    (proj1 (perform_postprocessing_time_shift 10 2015
      [mk_result_row "PFLO:ALL_PLUR" "congestion_benefit" 3 100%float [];
       mk_result_row "S" "cost" 11 7%float []] _ _ _ _)) _).
  - unfold in_int64, int64_min, int64_max. lia.
  - unfold in_int64, int64_min, int64_max. lia.
  - repeat constructor; simpl; lia.
  - repeat constructor; unfold shift_in_range, int64_max; simpl; lia.
  - vm_compute. reflexivity.
Defined.

(** C2 (as stated) fails where the [int64] sums overflow: a row with a
    non-negative time period before [TX_START] whose shifted time period
    wraps around gets a copy that lies before [TX_START] and is zeroed, and
    the number in the name of a copy wraps as well. *)
Lemma perform_postprocessing_time_shift_overflow :
  perform_postprocessing 4611686018427387905 2015
    [mk_result_row "S" "cost" 4611686018427387904 7%float []]
  = [mk_result_row "S" "cost" 4611686018427387904 0%float [];
     mk_result_row "S" "cost_shifted4611686018427389919"
                   (-9223372036854775807) 0%float []]
  /\ perform_postprocessing 10 9223372036854775807
       [mk_result_row "S" "cost" 3 7%float []]
     = [mk_result_row "S" "cost" 3 0%float [];
        mk_result_row "S" "cost_shifted-9223372036854775806" 13 7%float []].
Proof. split; vm_compute; reflexivity. Qed.

(** ** [fetch_csv_from_github]: the empty table *)

(** No path of [fetch_csv_from_github] raises: the handler of the [try]
    catches every exception of its body. *)
Lemma fetch_csv_from_github_returns read_csv url w :
  exists r, (fetch_csv_from_github read_csv url w).1 = Ok r.
Proof.
  unfold fetch_csv_from_github.
  destruct (read_csv (raw_url_of url)) as [[|row df]|e]; simpl; eauto.
Qed.

(** C3. When the fetched content parses to an empty table, the
    [ValueError] that [fetch_csv_from_github] raises is caught by the
    [except Exception] of the same function: the call logs the error and
    returns [None], exactly as it does when the fetch itself fails; it does
    not propagate an error to its caller. *)
Theorem fetch_csv_from_github_empty_table (url : string) (w : world) (e : exn) :
  fetch_csv_from_github (fun _ => Ok []) url w
  = (Ok None,
     print (Printed ("Error fetching CSV file from " +:+ raw_url_of url +:+ ": "
                     +:+ "The CSV file fetched from " +:+ raw_url_of url
                     +:+ " is empty.")) w)
  /\ fetch_csv_from_github (fun _ => Raise e) url w
     = (Ok None,
        print (Printed ("Error fetching CSV file from " +:+ raw_url_of url +:+ ": "
                        +:+ exn_message e)) w).
Proof. split; reflexivity. Qed.

(** ** [get_default_transformation_codes]: what [remove] and [replace] do *)

(** C9. [get_default_transformation_codes] rewrites every occurrence of
    "TFR:" in a code, not the prefix alone, and removes the first
    "TFR:BASE" entry only: a code with an inner "TFR:" comes out changed
    inside, and a second sentinel stays in the list as "TX:BASE". *)
Theorem get_default_transformation_codes_inner_and_repeated :
  get_default_transformation_codes [mk_transformer_row "TFR:A_TFR:B" []]
  = ["TX:A_TX:B"]
  /\ get_default_transformation_codes
       [mk_transformer_row "TFR:BASE" []; mk_transformer_row "TFR:BASE" [];
        mk_transformer_row "TFR:A" []]
     = ["TX:BASE"; "TX:A"]
  /\ get_default_transformation_codes
       [mk_transformer_row "TFR:BASE" []; mk_transformer_row "TFR:A" [];
        mk_transformer_row "TFR:B" []]
     = ["TX:A"; "TX:B"].
Proof. repeat split; vm_compute; reflexivity. Qed.

(** ** Splitting and joining on a separator *)

Lemma app_cons a s t : String a s +:+ t = String a (s +:+ t).
Proof. reflexivity. Qed.

Lemma app_empty_l t : "" +:+ t = t.
Proof. reflexivity. Qed.

Lemma app_empty_r s : s +:+ "" = s.
Proof. induction s as [|a s IH]; [done|]. by rewrite app_cons, IH. Qed.

Lemma split_nonempty sep s : Py.split sep s <> [].
Proof.
  destruct s as [|c s]; simpl; [discriminate|].
  destruct (Ascii.eqb c sep); [discriminate|].
  destruct (Py.split sep s); discriminate.
Qed.

Lemma split_free sep s : Forall (fun t => has_char sep t = false) (Py.split sep s).
Proof.
  induction s as [|c s IH]; simpl.
  - by repeat constructor.
  - destruct (Ascii.eqb c sep) eqn:E.
    + by constructor.
    + destruct (Py.split sep s) as [|tok toks].
      * repeat constructor. simpl. by rewrite E.
      * inversion IH; subst. constructor; [|done]. simpl. by rewrite E.
Qed.

Lemma join_cons_char sep c tok toks :
  Py.join sep (String c tok :: toks) = String c (Py.join sep (tok :: toks)).
Proof. destruct toks; reflexivity. Qed.

Lemma join_split s : Py.join "|" (Py.split pipe s) = s.
Proof.
  induction s as [|c s IH]; [reflexivity|]. simpl.
  destruct (Ascii.eqb_spec c pipe) as [->|Hne].
  - pose proof (split_nonempty pipe s) as Hs.
    destruct (Py.split pipe s) as [|tok toks]; [done|].
    change (Py.join "|" ("" :: tok :: toks))
      with (String pipe (Py.join "|" (tok :: toks))).
    by rewrite IH.
  - pose proof (split_nonempty pipe s) as Hs.
    destruct (Py.split pipe s) as [|tok toks]; [done|].
    by rewrite join_cons_char, IH.
Qed.

Lemma split_free_id sep t : has_char sep t = false -> Py.split sep t = [t].
Proof.
  induction t as [|c t IH]; simpl; [done|].
  intros [Hc Ht]%orb_false_iff. rewrite Hc, (IH Ht). reflexivity.
Qed.

Lemma split_app sep t rest :
  has_char sep t = false ->
  Py.split sep (t +:+ String sep rest) = t :: Py.split sep rest.
Proof.
  induction t as [|c t IH]; simpl.
  - intros _. rewrite ?app_empty_l. simpl. by rewrite Ascii.eqb_refl.
  - intros [Hc Ht]%orb_false_iff. rewrite ?app_cons. simpl.
    rewrite Hc, (IH Ht). reflexivity.
Qed.

Lemma split_join toks :
  toks <> [] -> Forall (fun t => has_char pipe t = false) toks ->
  Py.split pipe (Py.join "|" toks) = toks.
Proof.
  induction toks as [|t toks IH]; [done|]. intros _ H.
  inversion H as [|? ? Ht Htoks]; subst.
  destruct toks as [|u toks].
  - simpl. by apply split_free_id.
  - change (Py.join "|" (t :: u :: toks))
      with (t +:+ String pipe (Py.join "|" (u :: toks))).
    rewrite split_app by exact Ht. f_equal. by apply IH.
Qed.

(** ** What [re.sub] leaves of a token *)

Section SubScan.
Variable alts : list string.

Lemma sub_scan_length skip t :
  String.length (Re.sub_scan alts skip t) <= String.length t.
Proof.
  revert skip. induction t as [|c t IH]; intros skip; simpl; [lia|].
  destruct skip as [|n].
  - destruct (Re.match_here alts (String c t)) as [n|].
    + specialize (IH (n - 1)). lia.
    + simpl. specialize (IH 0). lia.
  - specialize (IH n). lia.
Qed.

Lemma sub_scan_free sep skip t :
  has_char sep t = false -> has_char sep (Re.sub_scan alts skip t) = false.
Proof.
  revert skip. induction t as [|c t IH]; intros skip; simpl; [done|].
  intros [Hc Ht]%orb_false_iff.
  destruct skip as [|n]; [|by apply IH].
  destruct (Re.match_here alts (String c t)); [by apply IH|].
  simpl. rewrite Hc. by apply IH.
Qed.

Lemma prefix_split alt t :
  String.prefix alt t = true <-> exists rest, t = alt +:+ rest.
Proof.
  revert t. induction alt as [|a alt IH]; intros t.
  - split; [intros _; by exists t|intros _; by destruct t].
  - destruct t as [|b t]; simpl.
    { split; [done|intros [rest H]; discriminate H]. }
    destruct (ascii_dec a b) as [->|Hne].
    + rewrite IH. split; intros [rest H]; exists rest.
      * by rewrite app_cons, <- H.
      * rewrite app_cons in H. by injection H.
    + split; [done|]. intros [rest H]. rewrite app_cons in H.
      injection H as H1 H2. congruence.
Qed.

Lemma drop_app alt rest : Py.drop (String.length alt) (alt +:+ rest) = rest.
Proof. induction alt as [|a alt IH]; [by destruct rest|]. simpl. exact IH. Qed.

Lemma dollar_iff rest : Re.dollar rest = true <-> rest = "" \/ rest = Re.newline.
Proof.
  unfold Re.dollar. rewrite orb_true_iff, !String.eqb_eq. reflexivity.
Qed.

Lemma alt_matches_iff alt t :
  Re.alt_matches alt t = true <-> t = alt \/ t = alt +:+ Re.newline.
Proof.
  unfold Re.alt_matches. rewrite andb_true_iff, prefix_split. split.
  - intros [[rest ->] Hd]. rewrite drop_app in Hd.
    apply dollar_iff in Hd as [->| ->]; [left|by right].
    apply app_empty_r.
  - intros [->| ->].
    + split; [exists ""; by rewrite app_empty_r|].
      rewrite <- (app_empty_r alt) at 2. rewrite drop_app. reflexivity.
    + split; [by exists Re.newline|]. rewrite drop_app. reflexivity.
Qed.

Lemma match_here_None t :
  Re.match_here alts t = None <->
  forall alt, In alt alts -> t <> alt /\ t <> alt +:+ Re.newline.
Proof.
  unfold Re.match_here. split.
  - intros H alt Hin.
    destruct (find (fun alt => Re.alt_matches alt t) alts) eqn:E; [discriminate H|].
    pose proof (find_none _ _ E alt Hin) as Hn. simpl in Hn.
    split; intros Heq;
      (assert (Re.alt_matches alt t = true) by (apply alt_matches_iff; auto));
      congruence.
  - intros H.
    destruct (find (fun alt => Re.alt_matches alt t) alts) as [alt|] eqn:E; [|done].
    apply find_some in E as [Hin Hm]. apply alt_matches_iff in Hm.
    destruct (H alt Hin). tauto.
Qed.

Hypothesis alts_nonempty : Forall (fun alt => alt <> "") alts.

(** [re.sub] leaves [t] as it is exactly when the pattern matches nowhere
    in [t]. *)
Lemma sub_fixed_iff t : Re.sub alts t = t <-> ~ ends_in_alt alts t.
Proof.
  unfold Re.sub. induction t as [|c t IH].
  - simpl. split; [|done]. intros _ (base & alt & Hin & H).
    assert (alt = "") as ->.
    { destruct base, alt; try done; destruct H as [H|H]; discriminate H. }
    rewrite Forall_forall in alts_nonempty.
    apply (alts_nonempty ""); [by apply list_elem_of_In|done].
  - cbn [Re.sub_scan].
    destruct (Re.match_here alts (String c t)) as [n|] eqn:E.
    + split.
      * intros H. pose proof (sub_scan_length (n - 1) t) as Hl.
        rewrite H in Hl. simpl in Hl. lia.
      * intros Hno. exfalso. apply Hno. unfold Re.match_here in E.
        destruct (find (fun alt => Re.alt_matches alt (String c t)) alts)
          as [alt|] eqn:F; [|discriminate E].
        apply find_some in F as [Hin Hm]. apply alt_matches_iff in Hm.
        exists "", alt. rewrite !app_empty_l. tauto.
    + rewrite match_here_None in E. split.
      * intros H. injection H as H. apply IH in H.
        intros (base & alt & Hin & Hb). destruct base as [|b base].
        -- rewrite !app_empty_l in Hb. destruct (E alt Hin). tauto.
        -- apply H. exists base, alt. split; [done|].
           rewrite !app_cons in Hb.
           destruct Hb as [Hb|Hb]; injection Hb as _ Hb; tauto.
      * intros Hno. f_equal. apply IH.
        intros (base & alt & Hin & Hb). apply Hno.
        exists (String c base), alt. split; [done|].
        rewrite !app_cons. destruct Hb as [->| ->]; tauto.
Qed.
End SubScan.

(** ** What [replace] rewrites in a transformer code *)

(** Where [replace] changes nothing, and where it changes the prefix only. *)
Lemma replace_scan_absent old new s :
  Py.contains old s = false -> Py.replace_scan 0 old new s = s.
Proof.
  induction s as [|c s IH]; [done|]. simpl.
  intros [Hp Hs]%orb_false_iff. rewrite Hp. by rewrite IH.
Qed.

Lemma replace_scan_skip old new skipped s :
  Py.replace_scan (String.length skipped) old new (skipped +:+ s)
  = Py.replace_scan 0 old new s.
Proof.
  induction skipped as [|c skipped IH]; [by destruct s|].
  rewrite app_cons. simpl. exact IH.
Qed.

Lemma replace_prefix_only rest :
  Py.contains "TFR:" rest = false ->
  Py.replace "TFR:" "TX:" ("TFR:" +:+ rest) = "TX:" +:+ rest.
Proof.
  intros H. unfold Py.replace.
  change ("TFR:" +:+ rest) with (String "T" ("FR:" +:+ rest)).
  cbn [Py.replace_scan]. rewrite (proj2 (prefix_split "TFR:" _)) by (by exists rest).
  change (String.length "TFR:" - 1) with (String.length "FR:").
  by rewrite replace_scan_skip, replace_scan_absent.
Qed.

(** No code of the result starts with "TFR:". *)
Lemma prefix_cons c t a s :
  String.prefix (String c t) (String a s)
  = if ascii_dec c a then String.prefix t s else false.
Proof. reflexivity. Qed.

Lemma replace_scan_head (c : ascii) (tail s : string) :
  c <> "T"%char ->
  String.prefix (String c tail) s = false ->
  (forall s', String.prefix tail s' = false ->
              String.prefix tail (Py.replace_scan 0 "TFR:" "TX:" s') = false) ->
  String.prefix (String c tail) (Py.replace_scan 0 "TFR:" "TX:" s) = false.
Proof.
  intros Hc Hs Htail. destruct s as [|a s]; [done|].
  cbn [Py.replace_scan]. destruct (String.prefix "TFR:" (String a s)) eqn:Hm.
  - change ("TX:" +:+ ?x) with (String "T" ("X:" +:+ x)).
    rewrite prefix_cons. by destruct (ascii_dec c "T").
  - rewrite prefix_cons in Hs |- *.
    destruct (ascii_dec c a); [by apply Htail|done].
Qed.

Lemma replace_no_TFR_prefix s :
  String.prefix "TFR:" (Py.replace "TFR:" "TX:" s) = false.
Proof.
  unfold Py.replace. destruct s as [|a s]; [done|].
  cbn [Py.replace_scan]. destruct (String.prefix "TFR:" (String a s)) eqn:Hm.
  - change ("TX:" +:+ ?x) with (String "T" (String "X" (":" +:+ x))).
    rewrite !prefix_cons. by destruct (ascii_dec "T" "T").
  - rewrite prefix_cons in Hm |- *. destruct (ascii_dec "T" a); [|done].
    apply replace_scan_head; [done|exact Hm|]. intros s1 H1.
    apply replace_scan_head; [done|exact H1|]. intros s2 H2.
    apply replace_scan_head; [done|exact H2|]. intros s3 H3.
    by destruct s3.
Qed.

Lemma get_default_transformation_codes_no_TFR transformer_df code :
  In code (get_default_transformation_codes transformer_df) ->
  String.prefix "TFR:" code = false.
Proof.
  unfold get_default_transformation_codes. intros (c & <- & _)%in_map_iff.
  apply replace_no_TFR_prefix.
Qed.

(** ** What [clean_token] strips *)

Lemma clean_token_fixed_iff t : clean_token t = t <-> ~ ends_in_known_suffix t.
Proof.
  apply sub_fixed_iff. unfold suffixes_to_remove.
  repeat constructor; discriminate.
Qed.

Lemma proper_suffix_app suf c x : proper_suffix suf (String c (x +:+ suf)) = true.
Proof.
  revert c. induction x as [|a x IH]; intros c.
  - rewrite app_empty_l. simpl. by rewrite String.eqb_refl.
  - specialize (IH a). rewrite app_cons.
    change (String.eqb suf (String a (x +:+ suf))
            || proper_suffix suf (String a (x +:+ suf)) = true).
    rewrite IH. apply orb_true_r.
Qed.

(** No known suffix, with or without a final newline, is the proper end of
    another one. *)
Lemma suffixes_unrelated alt alt' :
  In alt suffixes_to_remove -> In alt' suffixes_to_remove ->
  proper_suffix alt alt' = false
  /\ proper_suffix alt (alt' +:+ Re.newline) = false
  /\ proper_suffix (alt +:+ Re.newline) alt' = false
  /\ proper_suffix (alt +:+ Re.newline) (alt' +:+ Re.newline) = false.
Proof.
  assert (H : forallb (fun a => forallb (fun a' =>
                negb (proper_suffix a a')
                && negb (proper_suffix a (a' +:+ Re.newline))
                && negb (proper_suffix (a +:+ Re.newline) a')
                && negb (proper_suffix (a +:+ Re.newline) (a' +:+ Re.newline)))
              suffixes_to_remove) suffixes_to_remove = true)
    by (vm_compute; reflexivity).
  intros Ha Ha'. rewrite forallb_forall in H. specialize (H alt Ha).
  rewrite forallb_forall in H. specialize (H alt' Ha').
  rewrite !andb_true_iff, !negb_true_iff in H. tauto.
Qed.

Lemma no_match_before c rest tail :
  (forall alt', In alt' suffixes_to_remove ->
                proper_suffix tail alt' = false
                /\ proper_suffix tail (alt' +:+ Re.newline) = false) ->
  Re.match_here suffixes_to_remove (String c (rest +:+ tail)) = None.
Proof.
  intros H. apply match_here_None. intros alt' Hin.
  destruct (H alt' Hin) as [H1 H2].
  split; intros Heq; pose proof (proper_suffix_app tail c rest) as Hp;
    rewrite Heq in Hp; congruence.
Qed.

(** A token that ends in a known suffix loses exactly that suffix; so does
    a token in which the suffix is followed by a final newline. *)
Lemma clean_token_strips base alt :
  In alt suffixes_to_remove ->
  clean_token (base +:+ alt) = base
  /\ clean_token (base +:+ alt +:+ Re.newline) = base +:+ Re.newline.
Proof.
  intros Hin. unfold clean_token, Re.sub.
  induction base as [|c base [IH1 IH2]].
  - rewrite !app_empty_l. unfold suffixes_to_remove in Hin. simpl in Hin.
    repeat (destruct Hin as [<-|Hin]; [split; vm_compute; reflexivity|]).
    destruct Hin.
  - rewrite !app_cons. cbn [Re.sub_scan].
    rewrite (no_match_before c base alt), (no_match_before c base (alt +:+ Re.newline)).
    + by rewrite IH1, IH2.
    + intros alt' Hin'. destruct (suffixes_unrelated alt alt' Hin Hin'). tauto.
    + intros alt' Hin'. destruct (suffixes_unrelated alt alt' Hin Hin'). tauto.
Qed.

(** ** [remove_suffix_from_transformations]: the end of a token *)


(** ** [remove_suffix_from_transformations] applied twice *)

Lemma clean_tokens_free s :
  Forall (fun t => has_char pipe t = false) (map clean_token (Py.split pipe s)).
Proof.
  change (map ?f ?l) with (f <$> l). rewrite Forall_map.
  eapply Forall_impl; [apply split_free|]. intros t Ht. simpl.
  by apply sub_scan_free.
Qed.

Lemma clean_specification_fixed_iff s :
  clean_transformation_specification s = s <->
  Forall (fun tok => clean_token tok = tok) (Py.split pipe s).
Proof.
  unfold clean_transformation_specification. split.
  - intros H. apply (f_equal (Py.split pipe)) in H.
    rewrite split_join in H.
    + revert H. generalize (Py.split pipe s). intros toks.
      induction toks as [|t toks IH]; [constructor|]. simpl.
      intros H. injection H as Ht Htoks. constructor; auto.
    + pose proof (split_nonempty pipe s).
      destruct (Py.split pipe s); [done|discriminate].
    + apply clean_tokens_free.
  - intros H. rewrite <- (join_split s) at 2. f_equal.
    rewrite <- (map_id (Py.split pipe s)) at 2.
    by apply map_ext_Forall.
Qed.

Lemma remove_suffix_cons r d :
  remove_suffix_from_transformations (r :: d)
  = rbind (apply_clean (transformation_specification r)) (fun c =>
    rbind (remove_suffix_from_transformations d) (fun d' =>
    Ok (set_specification r c :: d'))).
Proof.
  unfold remove_suffix_from_transformations. simpl.
  destruct (apply_clean (transformation_specification r)); simpl; [|done].
  destruct (rmap_list _ d); reflexivity.
Qed.

Lemma remove_suffix_specified df d1 :
  remove_suffix_from_transformations df = Ok d1 ->
  Forall (fun r => is_Some (transformation_specification r)) d1.
Proof.
  revert d1. induction df as [|r df IH]; intros d1.
  - intros [= <-]. constructor.
  - rewrite remove_suffix_cons.
    destruct (transformation_specification r) as [s|]; simpl; [|done].
    destruct (remove_suffix_from_transformations df) as [d'|]; simpl; [|done].
    intros [= <-]. constructor; [by eexists|by apply IH].
Qed.

Lemma remove_suffix_fixed_iff d :
  remove_suffix_from_transformations d = Ok d <->
  Forall (fun r => exists s, transformation_specification r = Some s
                             /\ clean_transformation_specification s = s) d.
Proof.
  induction d as [|r d IH]; [by split; [constructor|]|].
  rewrite remove_suffix_cons, Forall_cons, <- IH.
  destruct r as [code [s|] other]; simpl.
  - destruct (remove_suffix_from_transformations d) as [d'|]; simpl.
    + unfold set_specification. simpl. split.
      * intros [= Hs ->]. split; [by exists s|done].
      * intros [(s' & [= <-] & Hs) [= ->]]. by rewrite Hs.
    + split; [done|]. intros [_ H]. discriminate H.
  - split; [done|]. intros [(s & H & _) _]. discriminate H.
Qed.

(** C4 (as the code has it). One application strips at most one suffix per
    token, so a second application changes the table again exactly when a
    token of the once-cleaned table still ends in a known suffix:
    applying the operation twice yields the same table as applying it once
    if and only if no token of the once-cleaned table ends in a known
    suffix (at its end, or before a final newline). *)
Theorem remove_suffix_twice (df d1 : list attr_row) :
  remove_suffix_from_transformations df = Ok d1 ->
  (remove_suffix_from_transformations d1 = Ok d1 <->
   forall r s tok,
     In r d1 -> transformation_specification r = Some s ->
     In tok (Py.split pipe s) -> ~ ends_in_known_suffix tok).
Proof.
  intros H. rewrite remove_suffix_fixed_iff, Forall_forall. split.
  - intros Hfix r s tok Hr Hs Htok.
    destruct (Hfix r) as (s' & Hs' & Hc); [by apply list_elem_of_In|].
    assert (s' = s) as -> by congruence.
    apply clean_specification_fixed_iff in Hc. rewrite Forall_forall in Hc.
    apply clean_token_fixed_iff, Hc. by apply list_elem_of_In.
  - intros Hno r Hr.
    pose proof (remove_suffix_specified _ _ H) as Hsome.
    rewrite Forall_forall in Hsome. destruct (Hsome r Hr) as [s Hs].
    exists s. split; [done|].
    apply clean_specification_fixed_iff, Forall_forall. intros tok Htok.
    apply clean_token_fixed_iff. eapply Hno; [|exact Hs|].
    + by apply list_elem_of_In.
    + by apply list_elem_of_In.
Qed.

Lemma remove_suffix_twice_witness :
  remove_suffix_from_transformations
    [mk_attr_row "S" (Some "TX:ABC|TX:DEF") ["1"]]
  = Ok [mk_attr_row "S" (Some "TX:ABC|TX:DEF") ["1"]].
Proof.
  apply (remove_suffix_twice
           [mk_attr_row "S" (Some "TX:ABC_LOW|TX:DEF_HIGHEST") ["1"]]
           [mk_attr_row "S" (Some "TX:ABC|TX:DEF") ["1"]]).
  - vm_compute. reflexivity.
  - intros r s tok [<-|[]] [= <-] Htok. apply clean_token_fixed_iff.
    vm_compute in Htok. destruct Htok as [<-|[<-|[]]]; vm_compute; reflexivity.
Defined.

(** C4 (as stated) fails: a token with two stacked suffixes loses one of
    them at each application. *)
Lemma remove_suffix_not_idempotent :
  remove_suffix_from_transformations [mk_attr_row "S" (Some "TX:A_LOW_HIGH") []]
  = Ok [mk_attr_row "S" (Some "TX:A_LOW") []]
  /\ remove_suffix_from_transformations [mk_attr_row "S" (Some "TX:A_LOW") []]
     = Ok [mk_attr_row "S" (Some "TX:A") []]
  /\ remove_suffix_from_transformations [mk_attr_row "S" (Some "TX:A_LOW") []]
     <> Ok [mk_attr_row "S" (Some "TX:A_LOW") []].
Proof.
  split; [|split].
  - vm_compute. reflexivity.
  - vm_compute. reflexivity.
  - vm_compute. discriminate.
Qed.

(** ** Running a store-passing program *)

Section StoreFacts.
Context {T : Type}.
Implicit Types (h : gmap nat T) (l : nat) (v : T).

Lemma fresh_None h : h !! fresh (dom h) = None.
Proof. apply not_elem_of_dom, is_fresh. Qed.

Lemma bind_Ok {X Y} (m : Store.M X) (k : X -> Store.M Y) h x h' :
  m h = (Ok x, h') -> Store.bind m k h = k x h'.
Proof. unfold Store.bind. by intros ->. Qed.

Lemma bind_Raise {X Y} (m : Store.M X) (k : X -> Store.M Y) h e h' :
  m h = (Raise e, h') -> Store.bind m k h = (Raise e, h').
Proof. unfold Store.bind. by intros ->. Qed.

Lemma get_Some h l v : h !! l = Some v -> Store.get l h = (Ok v, h).
Proof. unfold Store.get. by intros ->. Qed.

Lemma update_Some h l v f :
  h !! l = Some v -> Store.update l f h = (Ok tt, <[l := f v]> h).
Proof. intros H. unfold Store.update. by rewrite (bind_Ok _ _ _ _ _ (get_Some _ _ _ H)). Qed.

Lemma copy_Some h l v :
  h !! l = Some v ->
  Store.copy l h = (Ok (fresh (dom h)), <[fresh (dom h) := v]> h).
Proof. intros H. unfold Store.copy. by rewrite (bind_Ok _ _ _ _ _ (get_Some _ _ _ H)). Qed.

Lemma new_fresh h v :
  Store.new v h = (Ok (fresh (dom h)), <[fresh (dom h) := v]> h).
Proof. reflexivity. Qed.

(** A location that is free in a store differs from one that is bound. *)
Lemma free_bound_ne h l l' v : h !! l = None -> h !! l' = Some v -> l <> l'.
Proof. intros H1 H2 ->. congruence. Qed.

(** A store keeps what an earlier store bound, once only locations that
    were free there have been written. *)
Lemma extend_insert h0 h l v : h0 ⊆ h -> h0 !! l = None -> h0 ⊆ <[l := v]> h.
Proof. intros H1 H2. by apply insert_subseteq_r. Qed.

Lemma free_below h0 h l : h0 ⊆ h -> h !! l = None -> h0 !! l = None.
Proof. intros H1 H2. by eapply lookup_weaken_None. Qed.
End StoreFacts.

(** Symbolic execution of a store-passing program: the store is a stack of
    insertions over the initial one, every allocated location is named
    together with the fact that it was free when allocated. *)

Ltac solve_lookup :=
  repeat first
    [ apply lookup_insert_eq
    | rewrite lookup_insert_ne by solve_ne ];
  eassumption
with solve_ne :=
  match goal with
  | H : ?S !! ?l = None |- ?l <> ?l' =>
      eapply (free_bound_ne S l l' _ H); solve_lookup
  | H : ?S !! ?l' = None |- ?l <> ?l' =>
      apply not_eq_sym; eapply (free_bound_ne S l' l _ H); solve_lookup
  end.

Ltac name_fresh :=
  match goal with
  | |- context [fresh (dom ?S)] =>
      let H := fresh "Hfree" in
      let l := fresh "l" in
      pose proof (fresh_None S) as H;
      set (l := fresh (dom S)) in *; clearbody l
  end.

Ltac step_eq :=
  first [ apply copy_Some; solve_lookup
        | apply get_Some; solve_lookup
        | apply update_Some; solve_lookup
        | apply new_fresh
        | reflexivity ].

Ltac store_step := erewrite bind_Ok by step_eq; try name_fresh.

Ltac solve_extends :=
  repeat first
    [ assumption
    | reflexivity
    | apply extend_insert;
      [| match goal with
         | H : ?S !! ?l = None |- _ !! ?l = None =>
             apply (free_below _ S l); [|exact H]
         end] ].

Ltac solve_free :=
  match goal with
  | H : ?S !! ?l = None |- _ !! ?l = None =>
      first [ exact H | apply (free_below _ S l); [solve_extends | exact H] ]
  end.

Lemma remove_suffix_from_transformations_st_run (h : gmap nat (list attr_row))
    (attr_df : nat) (df : list attr_row) :
  h !! attr_df = Some df ->
  returns_modified_copy (remove_suffix_from_transformations_st attr_df)
                        (remove_suffix_from_transformations df) h.
Proof.
  intros Harg. unfold returns_modified_copy, remove_suffix_from_transformations_st,
    remove_suffix_from_transformations.
  do 2 store_step.
  destruct (rmap_list (fun r => apply_clean (transformation_specification r)) df)
    as [col|e] eqn:Ecol.
  - do 2 store_step. unfold Store.ret. simpl.
    split; [solve_extends|]. split; [done|]. solve_lookup.
  - erewrite bind_Raise by reflexivity. simpl. split; [solve_extends|done].
Qed.

Lemma perform_postprocessing_st_run (TX_START TIME_PERIOD_0 : Z)
    (h : gmap nat (list result_row)) (results_all_pp : nat) (df : list result_row) :
  h !! results_all_pp = Some df ->
  returns_modified_copy (perform_postprocessing_st TX_START TIME_PERIOD_0 results_all_pp)
                        (Ok (perform_postprocessing TX_START TIME_PERIOD_0 df)) h.
Proof.
  intros Harg. unfold returns_modified_copy, perform_postprocessing_st.
  repeat store_step. unfold Store.ret. simpl.
  split; [solve_extends|]. split; [solve_free|]. solve_lookup.
Qed.

Section TotalTluFacts.
Context {frame column : Type}.
Variable IDS : list string.
Variable select_columns : frame -> list string -> result frame.
Variable melt : frame -> list string -> result frame.
Variable merge : frame -> frame -> list string -> result frame.
Variable get_column : frame -> string -> result column.
Variable mul_columns : column -> column -> result column.
Variable set_column : string -> column -> frame -> frame.
Variable groupby_sum : frame -> list string -> string -> result frame.
Variable rename_column : frame -> string -> string -> frame.
Variable reset_index : frame -> frame.

Ltac lift_step :=
  match goal with
  | |- context [Store.bind (Store.lift ?r) _ _] =>
      let e := fresh "e" in
      destruct r as [?|e];
      [ store_step
      | erewrite bind_Raise by reflexivity; simpl;
        split; [solve_extends|reflexivity] ]
  end.

Lemma add_total_tlu_calculation_st_run (h : gmap nat frame)
    (df tlu_conversions_df : nat) (cb tlu : frame) (cols_to_keep : list string) :
  h !! df = Some cb -> h !! tlu_conversions_df = Some tlu ->
  returns_modified_copy
    (add_total_tlu_calculation_st IDS select_columns melt merge get_column
       mul_columns set_column groupby_sum rename_column reset_index
       df tlu_conversions_df cols_to_keep)
    (add_total_tlu_calculation IDS select_columns melt merge get_column
       mul_columns set_column groupby_sum rename_column reset_index
       cb tlu cols_to_keep) h.
Proof.
  intros Hdf Htlu.
  unfold returns_modified_copy, add_total_tlu_calculation_st, add_total_tlu_calculation.
  repeat first [ store_step | lift_step; cbn [rbind] ].
  rewrite new_fresh. name_fresh. simpl.
  split; [solve_extends|]. split; [solve_free|solve_lookup].
Qed.
End TotalTluFacts.

(** C10. The table-transforming operations work on a copy: called on the
    reference of a frame, [remove_suffix_from_transformations],
    [add_total_tlu_calculation] and [perform_postprocessing] leave every
    frame of the store as it was (the argument in particular) and return
    a frame at a fresh location holding the transformed table. *)
Theorem transforming_operations_leave_argument
    (ha : gmap nat (list attr_row)) (attr_df : nat) (attrs : list attr_row)
    (hr : gmap nat (list result_row)) (results_all_pp : nat)
    (results : list result_row) (TX_START TIME_PERIOD_0 : Z)
    {frame column : Type} (IDS : list string)
    (select_columns : frame -> list string -> result frame)
    (melt : frame -> list string -> result frame)
    (merge : frame -> frame -> list string -> result frame)
    (get_column : frame -> string -> result column)
    (mul_columns : column -> column -> result column)
    (set_column : string -> column -> frame -> frame)
    (groupby_sum : frame -> list string -> string -> result frame)
    (rename_column : frame -> string -> string -> frame)
    (reset_index : frame -> frame)
    (hf : gmap nat frame) (df tlu_conversions_df : nat) (cb tlu : frame)
    (cols_to_keep : list string) :
  ha !! attr_df = Some attrs ->
  hr !! results_all_pp = Some results ->
  hf !! df = Some cb -> hf !! tlu_conversions_df = Some tlu ->
  let remove := remove_suffix_from_transformations_st attr_df in
  let post := perform_postprocessing_st TX_START TIME_PERIOD_0 results_all_pp in
  let total :=
    add_total_tlu_calculation_st IDS select_columns melt merge get_column
      mul_columns set_column groupby_sum rename_column reset_index
      df tlu_conversions_df cols_to_keep in
  (returns_modified_copy remove (remove_suffix_from_transformations attrs) ha
   /\ (remove ha).2 !! attr_df = Some attrs)
  /\ (returns_modified_copy post
        (Ok (perform_postprocessing TX_START TIME_PERIOD_0 results)) hr
      /\ (post hr).2 !! results_all_pp = Some results)
  /\ (returns_modified_copy total
        (add_total_tlu_calculation IDS select_columns melt merge get_column
           mul_columns set_column groupby_sum rename_column reset_index
           cb tlu cols_to_keep) hf
      /\ (total hf).2 !! df = Some cb
      /\ (total hf).2 !! tlu_conversions_df = Some tlu).
Proof.
  intros Ha Hr Hdf Htlu remove post total.
  pose proof (remove_suffix_from_transformations_st_run ha attr_df attrs Ha) as H1.
  pose proof (perform_postprocessing_st_run TX_START TIME_PERIOD_0 hr
                results_all_pp results Hr) as H2.
  pose proof (add_total_tlu_calculation_st_run IDS select_columns melt merge
                get_column mul_columns set_column groupby_sum rename_column
                reset_index hf df tlu_conversions_df cb tlu cols_to_keep Hdf Htlu)
    as H3.
  fold remove in H1. fold post in H2. fold total in H3.
  split; [|split].
  - split; [exact H1|]. destruct H1 as [Hsub _]. by eapply lookup_weaken.
  - split; [exact H2|]. destruct H2 as [Hsub _]. by eapply lookup_weaken.
  - split; [exact H3|]. destruct H3 as [Hsub _].
    split; by eapply lookup_weaken.
Qed.

Lemma transforming_operations_leave_argument_witness :
  (remove_suffix_from_transformations_st 0
     {[0 := [mk_attr_row "S" (Some "TX:A_LOW") []]]}).2 !! 0
  = Some [mk_attr_row "S" (Some "TX:A_LOW") []].
Proof.
  refine (proj2 (proj1
    (transforming_operations_leave_argument
       {[0 := [mk_attr_row "S" (Some "TX:A_LOW") []]]} 0
       [mk_attr_row "S" (Some "TX:A_LOW") []]
       {[0 := [mk_result_row "S" "cost" 3 7%float []]]} 0
       [mk_result_row "S" "cost" 3 7%float []] 10 2015
       (frame := unit) (column := unit) []
       (fun _ _ => Ok tt) (fun _ _ => Ok tt) (fun _ _ _ => Ok tt)
       (fun _ _ => Ok tt) (fun _ _ => Ok tt) (fun _ _ f => f)
       (fun _ _ _ => Ok tt) (fun f _ _ => f) (fun f => f)
       {[0 := tt]} 0 0 tt tt [] _ _ _ _))); reflexivity.
Defined.

(** ** [load_parameters_from_yaml] *)






Section LoadParametersFacts.
Variable fs : string -> option string.
Variable safe_load : string -> result yaml.


End LoadParametersFacts.


(** A key of a joined list occurs in the text the list is joined to. *)
Lemma contains_here k rest : Py.contains k (k +:+ rest) = true.
Proof.
  assert (H : String.prefix k (k +:+ rest) = true) by (apply prefix_split; eauto).
  destruct (k +:+ rest); simpl in *; by rewrite H.
Qed.

Lemma contains_later k before x :
  Py.contains k x = true -> Py.contains k (before +:+ x) = true.
Proof.
  intros H. induction before as [|c before IH]; [done|].
  rewrite app_cons. simpl. rewrite IH. apply orb_true_r.
Qed.




(** ** [check_missing_transformations] *)

(** The order [sorted] uses is a total preorder on strings. *)
Lemma ascii_compare_spec a b :
  CompareSpec (a = b) (N_of_ascii a < N_of_ascii b)%N
              (N_of_ascii b < N_of_ascii a)%N (Ascii.compare a b).
Proof.
  unfold Ascii.compare.
  destruct (N.compare_spec (N_of_ascii a) (N_of_ascii b)) as [H|H|H];
    constructor; try done.
  by rewrite <- (ascii_N_embedding a), <- (ascii_N_embedding b), H.
Qed.

Lemma str_le_trans : Transitive Py.str_le.
Proof.
  unfold Py.str_le, String.leb. intros s1.
  induction s1 as [|c1 s1 IH]; intros [|c2 s2] [|c3 s3]; simpl; try done.
  destruct (ascii_compare_spec c1 c2) as [->|H12|H12];
    destruct (ascii_compare_spec c2 c3) as [->|H23|H23]; try done.
  all: first [ apply IH
             | intros _ _; destruct (ascii_compare_spec c1 c3) as [->|H|H];
               first [ done | exfalso; lia ] ].
Qed.

Lemma str_le_total : Total Py.str_le.
Proof. intros s t. apply String.leb_total. Qed.

Lemma sorted_StronglySorted l : StronglySorted Py.str_le (Py.sorted l).
Proof. apply StronglySorted_merge_sort; [apply str_le_trans|apply str_le_total]. Qed.

Lemma sorted_Permutation l : Py.sorted l ≡ₚ l.
Proof. apply merge_sort_Permutation. Qed.

Lemma elem_of_experiment_transformations attributes_df t :
  t ∈ experiment_transformations attributes_df <-> used_token attributes_df t.
Proof.
  unfold experiment_transformations, used_token, dropna.
  rewrite elem_of_list_to_set, list_elem_of_In, in_concat. split.
  - intros (toks & Htoks & Ht). apply in_map_iff in Htoks as (spec & <- & Hspec).
    apply list_elem_of_In, list_elem_of_omap in Hspec as (cell & Hcell & Hid).
    apply list_elem_of_In, in_map_iff in Hcell as (r & <- & Hr).
    by exists r, spec.
  - intros (r & spec & Hr & Hspec & Ht). exists (Py.split pipe spec).
    split; [|done]. apply in_map_iff. exists spec. split; [done|].
    apply list_elem_of_In, list_elem_of_omap.
    exists (transformation_specification r). split; [|done].
    apply list_elem_of_In, in_map_iff. by exists r.
Qed.

Lemma elem_of_missing_transformations attributes_df codes t :
  In t (missing_transformations attributes_df codes) <->
  used_token attributes_df t /\ ~ In t codes.
Proof.
  unfold missing_transformations.
  rewrite <- list_elem_of_In, sorted_Permutation, elem_of_elements.
  rewrite elem_of_difference, elem_of_experiment_transformations.
  by rewrite elem_of_list_to_set, list_elem_of_In.
Qed.

(** C8 (as the code has it). [check_missing_transformations] reports the
    sorted list, without repetition, of the tokens used by the non-null
    specifications of the attribute table that are not known transformation
    codes. When the list is empty it prints the OK message, writes no file
    and raises nothing. Otherwise it prints the warning with the list and
    writes the report: when debug/missing_transformations_report.csv can be
    opened for writing, exactly that list is written there, the path is
    printed and nothing is raised; when it cannot, the exception of
    [to_csv] is raised, after the warning, with no file written and the
    path not printed. With specifications "A|B" and "C" and known codes A, C
    the list is ["B"]. *)
Theorem check_missing_transformations_report
    (open_write : string -> result unit)
    (attributes_df : list attr_row) (codes : list string) (w : world) :
  let missing := missing_transformations attributes_df codes in
  let out := check_missing_transformations open_write attributes_df codes w in
  StronglySorted Py.str_le missing
  /\ NoDup missing
  /\ (forall t, In t missing <-> used_token attributes_df t /\ ~ In t codes)
  /\ match missing with
     | [] =>
         out.1 = Ok tt
         /\ files out.2 = files w
         /\ stdout out.2 = (stdout w ++ [Printed "No missing transformations. OK!"])%list
     | _ :: _ =>
         match open_write "debug/missing_transformations_report.csv" with
         | Ok _ =>
             out.1 = Ok tt
             /\ files out.2
                = <["debug/missing_transformations_report.csv" :=
                     {| csv_header := ["missing_transformations"];
                        csv_rows := map (fun t => [t]) missing |}]> (files w)
             /\ stdout out.2 =
                (stdout w ++
                 [PrintedList missing_warning missing;
                  Printed ("Missing transformations report saved to: "
                           +:+ "debug/missing_transformations_report.csv")])%list
         | Raise e =>
             out.1 = Raise e
             /\ files out.2 = files w
             /\ stdout out.2 = (stdout w ++ [PrintedList missing_warning missing])%list
         end
     end
  /\ missing_transformations
       [mk_attr_row "S1" (Some "A|B") []; mk_attr_row "S2" (Some "C") [];
        mk_attr_row "S3" None []] ["A"; "C"]
     = ["B"].
Proof.
  intros missing out.
  split; [apply sorted_StronglySorted|].
  split; [unfold missing, missing_transformations;
          rewrite sorted_Permutation; apply NoDup_elements|].
  split; [intros t; apply elem_of_missing_transformations|].
  split; [|vm_compute; reflexivity].
  unfold out, check_missing_transformations, to_csv, report_path. fold missing.
  destruct missing as [|t ts]; [done|].
  destruct (open_write "debug/missing_transformations_report.csv") as [[]|e]; simpl.
  - split; [done|]. split; [done|]. by rewrite <- app_assoc.
  - done.
Qed.

(** C8 (as stated) fails where the report cannot be written: with no
    debug/ directory the call on the example of the claim raises, after the
    warning, and leaves no report. *)
Lemma check_missing_transformations_raises :
  check_missing_transformations (open_write_in [])
    [mk_attr_row "S1" (Some "A|B") []; mk_attr_row "S2" (Some "C") [];
     mk_attr_row "S3" None []] ["A"; "C"]
    {| stdout := []; files := ∅ |}
  = (Raise (OSError "Cannot save file into a non-existent directory: 'debug'"),
     {| stdout := [PrintedList missing_warning ["B"]]; files := ∅ |}).
Proof. vm_compute. reflexivity. Qed.

(** ** [build_attribute_strategy_code] *)

Section IndicatorFacts.
Variables column_names strategies_list : list string.

Lemma indicator_rows_ext P Q :
  (forall s c, In s strategies_list -> In c column_names -> P s c = Q s c) ->
  indicator_rows column_names strategies_list P
  = indicator_rows column_names strategies_list Q.
Proof.
  intros H. unfold indicator_rows. apply map_ext_in. intros s Hs. f_equal.
  apply map_ext_in. intros c Hc. by rewrite H.
Qed.

Lemma loc_set_one_indicator P s t :
  loc_set_one column_names s t (indicator_rows column_names strategies_list P)
  = indicator_rows column_names strategies_list
      (fun s' c => P s' c || (String.eqb s' s && String.eqb c t)).
Proof.
  unfold loc_set_one, indicator_rows. rewrite map_map. apply map_ext.
  intros s'. cbn [strategy_code_cell cells].
  destruct (String.eqb s' s).
  - f_equal. rewrite zip_with_map_self. apply map_ext. intros c.
    destruct (String.eqb c t); [by rewrite orb_true_r|by rewrite orb_false_r].
  - f_equal. apply map_ext. intros c. by rewrite orb_false_r.
Qed.

Lemma mark_tokens_indicator s toks P :
  foldl (fun df transformation =>
           if existsb (String.eqb transformation) column_names
           then loc_set_one column_names s transformation df
           else df)
        (indicator_rows column_names strategies_list P) toks
  = indicator_rows column_names strategies_list
      (fun s' c => P s' c || (String.eqb s' s && existsb (String.eqb c) toks)).
Proof.
  revert P. induction toks as [|t toks IH]; intros P.
  - simpl. apply indicator_rows_ext. intros s' c _ _.
    by rewrite andb_false_r, orb_false_r.
  - cbn [foldl]. destruct (existsb (String.eqb t) column_names) eqn:Ht.
    + rewrite loc_set_one_indicator, IH. apply indicator_rows_ext.
      intros s' c _ _. simpl.
      destruct (P s' c), (String.eqb s' s), (String.eqb c t); reflexivity.
    + rewrite IH. apply indicator_rows_ext. intros s' c _ Hc. simpl.
      assert (String.eqb c t = false) as ->; [|done].
      apply String.eqb_neq. intros ->.
      assert (existsb (String.eqb t) column_names = true); [|congruence].
      apply existsb_exists. exists t. split; [done|apply String.eqb_refl].
Qed.

Lemma mark_strategy_indicator attr_data_df s P :
  mark_strategy column_names attr_data_df
    (indicator_rows column_names strategies_list P) s
  = indicator_rows column_names strategies_list
      (fun s' c => P s' c || (String.eqb s' s && applies attr_data_df s' c)).
Proof.
  unfold mark_strategy.
  assert (Hsame : forall s' c,
            String.eqb s' s && applies attr_data_df s' c
            = String.eqb s' s && applies attr_data_df s c).
  { intros s' c. destruct (String.eqb_spec s' s) as [->|]; reflexivity. }
  unfold applies at 2, strategy_specification in Hsame.
  destruct (filter (fun r => attr_strategy_code r = s) attr_data_df)
    as [|first rest].
  - apply indicator_rows_ext. intros s' c _ _.
    by rewrite Hsame, andb_false_r, orb_false_r.
  - destruct (transformation_specification first) as [spec|].
    + rewrite mark_tokens_indicator. apply indicator_rows_ext.
      intros s' c _ _. by rewrite Hsame.
    + apply indicator_rows_ext. intros s' c _ _.
      by rewrite Hsame, andb_false_r, orb_false_r.
Qed.

Lemma mark_strategies_indicator attr_data_df strategies P :
  foldl (mark_strategy column_names attr_data_df)
        (indicator_rows column_names strategies_list P) strategies
  = indicator_rows column_names strategies_list
      (fun s' c => P s' c
                   || (existsb (String.eqb s') strategies
                       && applies attr_data_df s' c)).
Proof.
  revert P. induction strategies as [|s strategies IH]; intros P.
  - simpl. apply indicator_rows_ext. intros s' c _ _. by rewrite orb_false_r.
  - cbn [foldl]. rewrite mark_strategy_indicator, IH.
    apply indicator_rows_ext. intros s' c _ _. simpl.
    destruct (P s' c), (String.eqb s' s), (existsb (String.eqb s') strategies),
      (applies attr_data_df s' c); reflexivity.
Qed.
End IndicatorFacts.

Lemma build_rows column_names strategies_list attr_data_df :
  foldl (mark_strategy column_names attr_data_df)
        (map (fun s => {| strategy_code_cell := s;
                          cells := map (fun _ => 0%Z) column_names |})
             strategies_list)
        strategies_list
  = indicator_rows column_names strategies_list (applies attr_data_df).
Proof.
  change (map _ strategies_list)
    with (indicator_rows column_names strategies_list (fun _ _ => false)).
  rewrite mark_strategies_indicator. apply indicator_rows_ext.
  intros s c Hs _. simpl.
  assert (existsb (String.eqb s) strategies_list = true) as ->; [|done].
  apply existsb_exists. exists s. split; [done|apply String.eqb_refl].
Qed.

Lemma applies_iff attr_data_df s c :
  applies attr_data_df s c = true <->
  exists spec, strategy_specification attr_data_df s = Some spec
               /\ In c (Py.split pipe spec).
Proof.
  unfold applies. destruct (strategy_specification attr_data_df s) as [spec|].
  - rewrite existsb_exists. split.
    + intros (t & Ht & ->%String.eqb_eq). by exists spec.
    + intros (spec' & [= <-] & Hc). exists c. split; [done|apply String.eqb_refl].
  - split; [done|]. by intros (spec & H & _).
Qed.

Lemma strategy_specification_absent attr_data_df s :
  (forall r, In r attr_data_df -> attr_strategy_code r <> s) ->
  strategy_specification attr_data_df s = None.
Proof.
  intros H. unfold strategy_specification.
  destruct (filter (fun r => attr_strategy_code r = s) attr_data_df)
    as [|first rest] eqn:E; [done|].
  assert (Hin : first ∈ filter (fun r => attr_strategy_code r = s) attr_data_df)
    by (rewrite E; left).
  apply list_elem_of_filter in Hin as [Hs Hin].
  destruct (H first); [by apply list_elem_of_In|done].
Qed.

Lemma filter_unique_code (attr_data_df : list attr_row) r :
  NoDup (map attr_strategy_code attr_data_df) -> In r attr_data_df ->
  filter (fun x => attr_strategy_code x = attr_strategy_code r) attr_data_df = [r].
Proof.
  induction attr_data_df as [|a rest IH]; [done|]. simpl.
  intros [Ha Hrest]%NoDup_cons [->|Hin].
  - rewrite filter_cons_True by done. f_equal.
    destruct (filter _ rest) as [|x xs] eqn:E; [done|]. exfalso.
    assert (Hx : x ∈ filter (fun x => attr_strategy_code x = attr_strategy_code r) rest)
      by (rewrite E; left).
    apply list_elem_of_filter in Hx as [Hc Hx]. apply Ha.
    rewrite <- Hc. apply list_elem_of_In, in_map. by apply list_elem_of_In.
  - rewrite filter_cons_False; [by apply IH|].
    intros Hc. apply Ha. rewrite Hc. apply list_elem_of_In, in_map. exact Hin.
Qed.

Lemma strategy_specification_unique attr_data_df s spec :
  NoDup (map attr_strategy_code attr_data_df) ->
  strategy_specification attr_data_df s = Some spec <->
  exists r, In r attr_data_df /\ attr_strategy_code r = s
            /\ transformation_specification r = Some spec.
Proof.
  intros Hnd. unfold strategy_specification. split.
  - destruct (filter (fun r => attr_strategy_code r = s) attr_data_df)
      as [|first rest] eqn:E; [done|]. intros H.
    assert (Hin : first ∈ filter (fun r => attr_strategy_code r = s) attr_data_df)
      by (rewrite E; left).
    apply list_elem_of_filter in Hin as [Hs Hin].
    exists first. split; [by apply list_elem_of_In|done].
  - intros (r & Hin & <- & Hspec). by rewrite filter_unique_code.
Qed.

(** C6 (as the code has it). Given a non-empty fetched code-list table,
    [build_attribute_strategy_code] returns one row per strategy, in list
    order, and one column per known transformation code; the cell of a
    strategy and a code is 1 when the specification of the first attribute
    row carrying the strategy's code is non-null and holds that code among
    its "|"-separated tokens, and 0 otherwise. With one row per strategy
    code this is: the strategy appears in the attribute table with such a
    specification. A strategy without a row, or with a null specification,
    has an all-zero row; tokens that are no known code mark nothing. *)
Theorem build_attribute_strategy_code_matrix
    (read_csv : string -> result (list transformer_row)) (url : string)
    (strategies_list : list string) (attr_data_df : list attr_row) (w : world)
    (transformer_df : list transformer_row) :
  read_csv (raw_url_of url) = Ok transformer_df -> transformer_df <> [] ->
  let column_names := get_default_transformation_codes transformer_df in
  (build_attribute_strategy_code read_csv url strategies_list attr_data_df w).1
  = Ok {| columns := "strategy_code" :: column_names;
          rows := map (fun s =>
                         {| strategy_code_cell := s;
                            cells := map (fun c => if applies attr_data_df s c
                                                   then 1%Z else 0%Z)
                                         column_names |})
                      strategies_list |}
  /\ (forall s c,
        applies attr_data_df s c = true <->
        exists spec, strategy_specification attr_data_df s = Some spec
                     /\ In c (Py.split pipe spec))
  /\ (forall s,
        (forall r, In r attr_data_df -> attr_strategy_code r <> s) ->
        strategy_specification attr_data_df s = None)
  /\ (NoDup (map attr_strategy_code attr_data_df) ->
      forall s spec,
        strategy_specification attr_data_df s = Some spec <->
        exists r, In r attr_data_df /\ attr_strategy_code r = s
                  /\ transformation_specification r = Some spec)
  /\ (forall s,
        strategy_specification attr_data_df s = None ->
        map (fun c => if applies attr_data_df s c then 1%Z else 0%Z) column_names
        = map (fun _ => 0%Z) column_names).
Proof.
  intros Hread Hne column_names.
  split; [|split; [|split; [|split]]].
  - unfold build_attribute_strategy_code, fetch_csv_from_github.
    rewrite Hread. destruct transformer_df as [|row rest]; [done|].
    cbn [fst]. fold column_names. by rewrite build_rows.
  - apply applies_iff.
  - apply strategy_specification_absent.
  - intros Hnd s spec. by apply strategy_specification_unique.
  - intros s Hs. apply map_ext. intros c. unfold applies. by rewrite Hs.
Qed.

Lemma build_attribute_strategy_code_matrix_witness :
  (build_attribute_strategy_code
     (fun _ => Ok [mk_transformer_row "TFR:BASE" []; mk_transformer_row "TFR:A" [];
                   mk_transformer_row "TFR:B" []; mk_transformer_row "TFR:C" []])
     "https://github.com/org/repo/blob/main/transformers.csv"
     ["S1"; "S2"; "S3"; "S4"]
     [mk_attr_row "S1" (Some "TX:A|TX:B") []; mk_attr_row "S3" None [];
      mk_attr_row "S4" (Some "TX:Z|TX:C") []]
     {| stdout := []; files := ∅ |}).1
  = Ok {| columns := ["strategy_code"; "TX:A"; "TX:B"; "TX:C"];
          rows := [ {| strategy_code_cell := "S1"; cells := [1; 1; 0]%Z |};
                    {| strategy_code_cell := "S2"; cells := [0; 0; 0]%Z |};
                    {| strategy_code_cell := "S3"; cells := [0; 0; 0]%Z |};
                    {| strategy_code_cell := "S4"; cells := [0; 0; 1]%Z |} ] |}.
Proof.
  refine (eq_trans (proj1 (build_attribute_strategy_code_matrix
    (fun _ => Ok [mk_transformer_row "TFR:BASE" []; mk_transformer_row "TFR:A" [];
                  mk_transformer_row "TFR:B" []; mk_transformer_row "TFR:C" []])
    "https://github.com/org/repo/blob/main/transformers.csv"
    ["S1"; "S2"; "S3"; "S4"]
    [mk_attr_row "S1" (Some "TX:A|TX:B") []; mk_attr_row "S3" None [];
     mk_attr_row "S4" (Some "TX:Z|TX:C") []]
    {| stdout := []; files := ∅ |}
    [mk_transformer_row "TFR:BASE" []; mk_transformer_row "TFR:A" [];
     mk_transformer_row "TFR:B" []; mk_transformer_row "TFR:C" []]
    eq_refl _)) _).
  - discriminate.
  - vm_compute. reflexivity.
Defined.

(** C6 (as stated) fails on an empty code-list table, for which the call
    raises instead of producing a table, and on an attribute table with two
    rows for one strategy, of which only the first is read. *)
Lemma build_attribute_strategy_code_empty_and_repeated :
  (build_attribute_strategy_code (fun _ => Ok [])
     "https://github.com/org/repo/blob/main/transformers.csv"
     ["S1"] [mk_attr_row "S1" (Some "TX:A") []]
     {| stdout := []; files := ∅ |}).1
  = Raise (TypeError "'NoneType' object is not subscriptable")
  /\ (build_attribute_strategy_code
        (fun _ => Ok [mk_transformer_row "TFR:A" []; mk_transformer_row "TFR:B" []])
        "https://github.com/org/repo/blob/main/transformers.csv"
        ["S1"]
        [mk_attr_row "S1" (Some "TX:A") []; mk_attr_row "S1" (Some "TX:B") []]
        {| stdout := []; files := ∅ |}).1
     = Ok {| columns := ["strategy_code"; "TX:A"; "TX:B"];
             rows := [ {| strategy_code_cell := "S1"; cells := [1; 0]%Z |} ] |}.
Proof. split; vm_compute; reflexivity. Qed.

(** * Further properties *)

(** ** [perform_postprocessing]: what holds for every table *)

Lemma rules_row_identity r : row_identity (rule_3 (rule_2 (rule_1 r))) = row_identity r.
Proof.
  unfold rule_3, rule_2, rule_1.
  repeat match goal with |- context [if ?b then _ else _] => destruct b end;
    reflexivity.
Qed.

Lemma zero_before_row_identity TX r : row_identity (zero_before TX r) = row_identity r.
Proof. unfold zero_before. by destruct (bool_decide _). Qed.

Lemma zero_before_early TX r :
  (time_period (zero_before TX r) < TX)%Z -> value (zero_before TX r) = 0%float.
Proof.
  unfold zero_before. destruct (bool_decide_reflect (time_period r < TX)%Z); [done|].
  intros H. by destruct n.
Qed.

Lemma perform_postprocessing_rows TX T0 df :
  perform_postprocessing TX T0 df
  = map (zero_before TX)
        (corrective_rules df
         ++ map (shifted_copy_int64 TX T0)
                (filter (fun r => (time_period r < TX)%Z) (corrective_rules df)))%list.
Proof.
  unfold perform_postprocessing. rewrite time_shift_rows, map_app. reflexivity.
Qed.

Lemma early_rows_count TX df :
  length (filter (fun r => (time_period r < TX)%Z) (corrective_rules df))
  = length (filter (fun r => (time_period r < TX)%Z) df).
Proof.
  rewrite corrective_rules_rows. induction df as [|r df IH]; [done|].
  cbn [map]. rewrite !filter_cons.
  assert (Ht : time_period (rule_3 (rule_2 (rule_1 r))) = time_period r).
  { pose proof (rules_row_identity r) as H. unfold row_identity in H. congruence. }
  rewrite Ht. destruct (decide (time_period r < TX)%Z); simpl; by rewrite IH.
Qed.

(** X1. Whatever the table, no row of the result of
    [perform_postprocessing] that lies before [TX_START] carries a value:
    every such row, original or appended copy, has value 0. *)
Theorem perform_postprocessing_early_rows_zero
    (TX_START TIME_PERIOD_0 : Z) (df : list result_row) :
  Forall (fun r => (time_period r < TX_START)%Z -> value r = 0%float)
         (perform_postprocessing TX_START TIME_PERIOD_0 df).
Proof.
  rewrite perform_postprocessing_rows. apply Forall_forall.
  intros r (x & <- & _)%list_elem_of_In%in_map_iff. apply zero_before_early.
Qed.

(** X2. [perform_postprocessing] keeps the original rows in place and
    changes nothing of them but [value]: the first rows of the result agree
    with the input on strategy_code, variable, time_period and the other
    columns, and the result has one more row per input row before
    [TX_START]. *)
Theorem perform_postprocessing_keeps_rows
    (TX_START TIME_PERIOD_0 : Z) (df : list result_row) :
  let out := perform_postprocessing TX_START TIME_PERIOD_0 df in
  map row_identity (take (length df) out) = map row_identity df
  /\ length out
     = length df + length (filter (fun r => (time_period r < TX_START)%Z) df).
Proof.
  intros out. unfold out. rewrite perform_postprocessing_rows, map_app.
  assert (Hlen : length (map (zero_before TX_START) (corrective_rules df)) = length df).
  { by rewrite length_map, corrective_rules_rows, length_map. }
  split.
  - rewrite <- Hlen at 1. rewrite take_app_length.
    rewrite corrective_rules_rows, !map_map. apply map_ext. intros r.
    by rewrite zero_before_row_identity, rules_row_identity.
  - rewrite length_app, Hlen, !length_map. f_equal. apply early_rows_count.
Qed.

(** X3. Outside the preconditions the time shift loses values. Time
    periods and the two constants are [int64] and the shift adds with
    wrap-around. A row before [TX_START] whose time_period is negative is
    zeroed and its appended copy, still before [TX_START], is zeroed as
    well; so is the copy of a row whose shifted time_period overflows
    [int64], which wraps around to a negative number. The copy of a row
    with a non-negative time_period whose shifted time_period is in range
    keeps the value. *)
Theorem perform_postprocessing_negative_period
    (TX_START TIME_PERIOD_0 : Z) (df : list result_row) :
  in_int64 TX_START -> in_int64 TIME_PERIOD_0 ->
  perform_postprocessing TX_START TIME_PERIOD_0 df
  = (map (zero_before TX_START) (corrective_rules df)
     ++ map (fun r => zero_before TX_START (shifted_copy_int64 TX_START TIME_PERIOD_0 r))
            (filter (fun r => (time_period r < TX_START)%Z) (corrective_rules df)))%list
  /\ (forall r, in_int64 (time_period r) ->
        (time_period r < 0)%Z -> in_int64 (time_period r + TX_START) ->
        zero_before TX_START (shifted_copy_int64 TX_START TIME_PERIOD_0 r)
        = set_value (shifted_copy_int64 TX_START TIME_PERIOD_0 r) 0%float)
  /\ (forall r, in_int64 (time_period r) ->
        (int64_max < time_period r + TX_START)%Z ->
        (time_period (shifted_copy_int64 TX_START TIME_PERIOD_0 r) < 0)%Z
        /\ zero_before TX_START (shifted_copy_int64 TX_START TIME_PERIOD_0 r)
           = set_value (shifted_copy_int64 TX_START TIME_PERIOD_0 r) 0%float)
  /\ (forall r, in_int64 (time_period r) ->
        (0 <= time_period r)%Z -> in_int64 (time_period r + TX_START) ->
        zero_before TX_START (shifted_copy_int64 TX_START TIME_PERIOD_0 r)
        = shifted_copy_int64 TX_START TIME_PERIOD_0 r).
Proof.
  intros HTX HT0. split; [|split; [|split]].
  - rewrite perform_postprocessing_rows, map_app, map_map. reflexivity.
  - intros r _ Hr Hin. unfold zero_before.
    rewrite bool_decide_eq_true_2; [reflexivity|]. cbn [time_period shifted_copy_int64].
    unfold add_int64. rewrite (wrap_int64_in_range _ Hin). lia.
  - intros r Hr Hover.
    assert (Hw : add_int64 (time_period r) TX_START
                 = (time_period r + TX_START - 18446744073709551616)%Z).
    { unfold add_int64, wrap_int64. unfold in_int64, int64_min, int64_max in *.
      rewrite <- (Z.mod_unique_pos
                    (time_period r + TX_START + 9223372036854775808)
                    18446744073709551616 1
                    (time_period r + TX_START - 9223372036854775808)) by lia.
      lia. }
    unfold in_int64, int64_min, int64_max in *. split.
    + cbn [time_period shifted_copy_int64]. rewrite Hw. lia.
    + unfold zero_before. rewrite bool_decide_eq_true_2; [reflexivity|].
      cbn [time_period shifted_copy_int64]. rewrite Hw. lia.
  - intros r _ Hr Hin. unfold zero_before.
    rewrite bool_decide_eq_false_2; [reflexivity|]. cbn [time_period shifted_copy_int64].
    unfold add_int64. rewrite (wrap_int64_in_range _ Hin). lia.
Qed.

Lemma perform_postprocessing_negative_period_witness :
  zero_before 10 (shifted_copy_int64 10 2015 (mk_result_row "S" "cost" (-2) 7%float []))
  = mk_result_row "S" "cost_shifted2013" 8 0%float []
  /\ zero_before 4611686018427387905
       (shifted_copy_int64 4611686018427387905 2015
          (mk_result_row "S" "cost" 4611686018427387904 7%float []))
     = mk_result_row "S" "cost_shifted4611686018427389919"
                     (-9223372036854775807) 0%float [].
Proof.
  split.
  - refine (eq_trans
      (proj1 (proj2 (perform_postprocessing_negative_period 10 2015 [] _ _))
         (mk_result_row "S" "cost" (-2) 7%float []) _ _ _) _).
    + unfold in_int64, int64_min, int64_max. lia.
    + unfold in_int64, int64_min, int64_max. lia.
    + unfold in_int64, int64_min, int64_max. simpl. lia.
    + simpl. lia.
    + unfold in_int64, int64_min, int64_max. simpl. lia.
    + vm_compute. reflexivity.
  - refine (eq_trans
      (proj2 (proj1 (proj2 (proj2
         (perform_postprocessing_negative_period 4611686018427387905 2015 [] _ _)))
         (mk_result_row "S" "cost" 4611686018427387904 7%float []) _ _)) _).
    + unfold in_int64, int64_min, int64_max. lia.
    + unfold in_int64, int64_min, int64_max. lia.
    + unfold in_int64, int64_min, int64_max. simpl. lia.
    + unfold int64_max. simpl. lia.
    + vm_compute. reflexivity.
Defined.

(** X4. On a table with no row before [TX_START] the time shift does
    nothing: [perform_postprocessing] returns the table the three
    corrective rules produce, with no row appended and no value zeroed by
    the shift. *)
Theorem perform_postprocessing_no_early_rows
    (TX_START TIME_PERIOD_0 : Z) (df : list result_row) :
  Forall (fun r => (TX_START <= time_period r)%Z) df ->
  perform_postprocessing TX_START TIME_PERIOD_0 df = corrective_rules df.
Proof.
  intros H.
  assert (Hc : Forall (fun r => (TX_START <= time_period r)%Z) (corrective_rules df)).
  { apply Forall_map with (f := time_period) (P := fun t => (TX_START <= t)%Z).
    change (time_period <$> corrective_rules df)
      with (map time_period (corrective_rules df)).
    rewrite corrective_rules_time_period.
    change (map time_period df) with (time_period <$> df). by apply Forall_map. }
  rewrite perform_postprocessing_rows.
  assert (Hf : filter (fun r => (time_period r < TX_START)%Z) (corrective_rules df) = []).
  { induction Hc as [|r l Hr Hl IH]; [done|].
    rewrite filter_cons_False by lia. exact IH. }
  rewrite Hf. cbn [map]. rewrite app_nil_r.
  rewrite <- (map_id (corrective_rules df)) at 2. apply map_ext_Forall.
  eapply Forall_impl; [exact Hc|]. intros r Hr. unfold zero_before.
  rewrite bool_decide_eq_false_2; [reflexivity|]. simpl in Hr. lia.
Qed.

Lemma perform_postprocessing_no_early_rows_witness :
  perform_postprocessing 10 2015
    [mk_result_row "PFLO:ALL_PLUR" "road_safety_benefit" 12 8%float []]
  = [mk_result_row "PFLO:ALL_PLUR" "road_safety_benefit" 12 4%float []].
Proof.
  refine (eq_trans (perform_postprocessing_no_early_rows 10 2015
    [mk_result_row "PFLO:ALL_PLUR" "road_safety_benefit" 12 8%float []] _) _).
  - repeat constructor. simpl. lia.
  - vm_compute. reflexivity.
Defined.

(** ** [remove_suffix_from_transformations]: tokens, rows and errors *)

Lemma split_clean_specification s :
  Py.split pipe (clean_transformation_specification s)
  = map clean_token (Py.split pipe s).
Proof.
  unfold clean_transformation_specification. apply split_join.
  - pose proof (split_nonempty pipe s).
    destruct (Py.split pipe s); [done|discriminate].
  - apply clean_tokens_free.
Qed.

(** X5. What the pattern does to one token: a token that ends in one of
    the eight suffixes loses exactly that suffix (also when a final newline
    follows it), a token the pattern matches nowhere is returned as it is,
    and no token grows. *)
Theorem clean_token_behaviour (base alt : string) :
  In alt suffixes_to_remove ->
  clean_token (base +:+ alt) = base
  /\ clean_token (base +:+ alt +:+ Re.newline) = base +:+ Re.newline
  /\ (forall t, clean_token t = t <-> ~ ends_in_known_suffix t)
  /\ (forall t, String.length (clean_token t) <= String.length t).
Proof.
  intros Hin. destruct (clean_token_strips base alt Hin) as [H1 H2].
  split; [exact H1|]. split; [exact H2|].
  split; [apply clean_token_fixed_iff|]. intros t. apply sub_scan_length.
Qed.

Lemma clean_token_behaviour_witness :
  clean_token "TX:LVST:DEC_ENTERIC_FERMENTATION_HIGHEST" = "TX:LVST:DEC_ENTERIC_FERMENTATION".
Proof.
  apply (clean_token_behaviour "TX:LVST:DEC_ENTERIC_FERMENTATION" "_HIGHEST").
  unfold suffixes_to_remove. simpl. tauto.
Defined.

(** X6. Cleaning a specification works token by token and keeps the
    tokens apart: the "|"-split of the cleaned specification is the list of
    the cleaned tokens of the original, in the same order, so the number of
    tokens never changes (a token that is only a suffix becomes an empty
    token). *)
Theorem clean_specification_tokens (specification : string) :
  Py.split pipe (clean_transformation_specification specification)
  = map clean_token (Py.split pipe specification)
  /\ length (Py.split pipe (clean_transformation_specification specification))
     = length (Py.split pipe specification).
Proof.
  split; [apply split_clean_specification|].
  by rewrite split_clean_specification, length_map.
Qed.

Lemma remove_suffix_all_specified df :
  Forall (fun r => is_Some (transformation_specification r)) df ->
  remove_suffix_from_transformations df = Ok (map cleaned_row df).
Proof.
  induction 1 as [|r df [s Hs] _ IH]; [reflexivity|].
  rewrite remove_suffix_cons, IH, Hs. cbn [rbind apply_clean map]. f_equal. f_equal.
  unfold cleaned_row. by rewrite Hs.
Qed.

Lemma remove_suffix_some_nan df :
  Exists (fun r => transformation_specification r = None) df ->
  remove_suffix_from_transformations df
  = Raise (AttributeError "'float' object has no attribute 'split'").
Proof.
  induction 1 as [r df Hr|r df _ IH]; rewrite remove_suffix_cons.
  - by rewrite Hr.
  - rewrite IH. by destruct (transformation_specification r).
Qed.

(** X7. [remove_suffix_from_transformations] fails on a table with a NaN
    specification, with the [AttributeError] of calling [split] on a
    float, and on a table without one it returns the rows in the same
    order, each with its specification cleaned and its strategy code and
    other columns as they were. *)
Theorem remove_suffix_rows_or_error (attr_df : list attr_row) :
  (Forall (fun r => is_Some (transformation_specification r)) attr_df ->
   exists out,
     remove_suffix_from_transformations attr_df = Ok out
     /\ length out = length attr_df
     /\ map attr_strategy_code out = map attr_strategy_code attr_df
     /\ map attr_other out = map attr_other attr_df
     /\ map transformation_specification out
        = map (fun r => option_map clean_transformation_specification
                                   (transformation_specification r)) attr_df)
  /\ (Exists (fun r => transformation_specification r = None) attr_df ->
      remove_suffix_from_transformations attr_df
      = Raise (AttributeError "'float' object has no attribute 'split'")).
Proof.
  split; [|apply remove_suffix_some_nan].
  intros H. exists (map cleaned_row attr_df).
  split; [by apply remove_suffix_all_specified|].
  split; [by rewrite length_map|].
  rewrite !map_map. repeat split; by apply map_ext.
Qed.

Lemma remove_suffix_rows_or_error_witness :
  remove_suffix_from_transformations
    [mk_attr_row "S1" (Some "TX:A_LOW") ["1"]; mk_attr_row "S2" None ["2"]]
  = Raise (AttributeError "'float' object has no attribute 'split'").
Proof.
  apply (proj2 (remove_suffix_rows_or_error
    [mk_attr_row "S1" (Some "TX:A_LOW") ["1"]; mk_attr_row "S2" None ["2"]])).
  right. left. reflexivity.
Defined.

(** ** [check_missing_transformations]: what the report depends on *)

Lemma str_le_antisym : AntiSymm eq Py.str_le.
Proof. intros s t. apply String.leb_antisym. Qed.

Lemma missing_transformations_NoDup attributes_df codes :
  NoDup (missing_transformations attributes_df codes).
Proof.
  unfold missing_transformations. rewrite sorted_Permutation. apply NoDup_elements.
Qed.

Lemma missing_transformations_nil attributes_df codes :
  (forall t, used_token attributes_df t -> In t codes) ->
  missing_transformations attributes_df codes = [].
Proof.
  intros H. destruct (missing_transformations attributes_df codes) as [|t ts] eqn:E;
    [done|].
  assert (Ht : In t (missing_transformations attributes_df codes))
    by (rewrite E; by left).
  apply elem_of_missing_transformations in Ht as [Hu Hn]. destruct Hn. by apply H.
Qed.

(** X8. The report depends on the attribute table and the code list only
    through the set of tokens used and the set of known codes: two
    attribute tables using the same tokens (rows reordered, repeated, or
    tokens moved between rows) and two code lists with the same members
    give the same missing list. *)
Theorem missing_transformations_set_only
    (attributes_1 attributes_2 : list attr_row) (codes_1 codes_2 : list string) :
  (forall t, used_token attributes_1 t <-> used_token attributes_2 t) ->
  (forall t, In t codes_1 <-> In t codes_2) ->
  missing_transformations attributes_1 codes_1
  = missing_transformations attributes_2 codes_2.
Proof.
  intros Hused Hcodes.
  apply (@StronglySorted_unique _ Py.str_le str_le_antisym);
    try apply sorted_StronglySorted.
  apply NoDup_Permutation; try apply missing_transformations_NoDup.
  intros t. rewrite !list_elem_of_In, !elem_of_missing_transformations.
  by rewrite Hused, Hcodes.
Qed.

Lemma missing_transformations_set_only_witness :
  missing_transformations
    [mk_attr_row "S1" (Some "TX:B|TX:A") []; mk_attr_row "S2" (Some "TX:C") []]
    ["TX:C"]
  = missing_transformations
      [mk_attr_row "S2" (Some "TX:C|TX:A") []; mk_attr_row "S1" (Some "TX:A|TX:B") [];
       mk_attr_row "S3" None []]
      ["TX:C"; "TX:C"].
Proof.
  apply missing_transformations_set_only.
  - intros t. rewrite <- !elem_of_experiment_transformations.
    vm_compute experiment_transformations. reflexivity.
  - intros t. simpl. tauto.
Defined.

(** X9. Adding the reported codes to the known ones settles the check: run
    again with the code list extended by the missing list, the operation
    finds nothing missing, prints the OK message and writes no file. *)
Theorem check_missing_transformations_after_update
    (open_write : string -> result unit)
    (attributes_df : list attr_row) (codes : list string) (w : world) :
  let updated := (codes ++ missing_transformations attributes_df codes)%list in
  missing_transformations attributes_df updated = []
  /\ check_missing_transformations open_write attributes_df updated w
     = (Ok tt, print (Printed "No missing transformations. OK!") w).
Proof.
  intros updated.
  assert (H : missing_transformations attributes_df updated = []).
  { apply missing_transformations_nil. intros t Ht. unfold updated.
    apply in_or_app. destruct (decide (t ∈ codes)) as [Hc|Hc].
    - left. by apply list_elem_of_In.
    - right. apply elem_of_missing_transformations. split; [done|].
      by rewrite <- list_elem_of_In. }
  split; [exact H|]. unfold check_missing_transformations. by rewrite H.
Qed.

(** X10. [check_missing_transformations] touches no file but its report
    and never erases output: every other path holds after the call what it
    held before, and what was printed before the call is still the
    beginning of what is printed after it. *)
Theorem check_missing_transformations_frame
    (open_write : string -> result unit)
    (attributes_df : list attr_row) (codes : list string) (w : world)
    (path : string) :
  path <> "debug/missing_transformations_report.csv" ->
  let w' := (check_missing_transformations open_write attributes_df codes w).2 in
  files w' !! path = files w !! path
  /\ exists printed, stdout w' = (stdout w ++ printed)%list /\ printed <> [].
Proof.
  intros Hpath w'. unfold w', check_missing_transformations, to_csv, report_path.
  destruct (missing_transformations attributes_df codes) as [|t ts]; simpl.
  - split; [done|]. by eexists.
  - destruct (open_write "debug/missing_transformations_report.csv") as [[]|e]; simpl.
    + split; [by rewrite lookup_insert_ne|].
      eexists. rewrite <- app_assoc. split; [reflexivity|done].
    + split; [done|]. eexists. split; [reflexivity|done].
Qed.

Lemma check_missing_transformations_frame_witness :
  files (check_missing_transformations (open_write_in ["debug"])
           [mk_attr_row "S1" (Some "TX:A") []] []
           {| stdout := []; files := {["data/attr.csv" := mk_csv ["a"] [["1"]]]} |}).2
    !! "data/attr.csv"
  = Some (mk_csv ["a"] [["1"]]).
Proof.
  refine (eq_trans (proj1 (check_missing_transformations_frame
    (open_write_in ["debug"])
    [mk_attr_row "S1" (Some "TX:A") []] []
    {| stdout := []; files := {["data/attr.csv" := mk_csv ["a"] [["1"]]]} |}
    "data/attr.csv" _)) _).
  - discriminate.
  - reflexivity.
Defined.

(** ** [fetch_csv_from_github]: every outcome *)

(** X11. [fetch_csv_from_github] hands back a table exactly when the
    rewritten URL reads as a non-empty table, and then that very table;
    in every other case (an empty table, any exception of the read) it
    hands back [None]. It never raises, never touches a file and prints
    exactly one line. *)
Theorem fetch_csv_from_github_outcomes
    (read_csv : string -> result (list transformer_row)) (url : string) (w : world) :
  let out := fetch_csv_from_github read_csv url w in
  (forall df, out.1 = Ok (Some df) <->
              read_csv (raw_url_of url) = Ok df /\ df <> [])
  /\ (out.1 = Ok None <->
      read_csv (raw_url_of url) = Ok [] \/ exists e, read_csv (raw_url_of url) = Raise e)
  /\ (forall e, out.1 <> Raise e)
  /\ files out.2 = files w
  /\ exists line, stdout out.2 = (stdout w ++ [Printed line])%list.
Proof.
  intros out. unfold out, fetch_csv_from_github.
  destruct (read_csv (raw_url_of url)) as [[|row rest]|e]; simpl;
    (split; [|split; [|split; [|split]]]);
    try done; try (by eexists).
  - intros df. split; [done|]. by intros [[= <-] H].
  - split; [intros _; by left|done].
  - intros df. split; [by intros [= <-]|by intros [[= <-] _]].
  - split; [done|]. intros [H|[e H]]; discriminate H.
  - intros df. split; [done|]. by intros [H _].
  - split; [intros _; right; by eexists|done].
Qed.

(** X12. A URL that holds neither "/blob/" nor "github.com" (a raw-content
    URL, as the docstring asks for) is fetched as it is: the rewriting
    leaves it unchanged. *)
Theorem raw_url_unchanged (url : string) :
  Py.contains "/blob/" url = false ->
  Py.contains "github.com" url = false ->
  raw_url_of url = url.
Proof.
  intros Hblob Hgit. unfold raw_url_of, Py.replace.
  rewrite (replace_scan_absent "/blob/" "/" url Hblob).
  by apply replace_scan_absent.
Qed.

Lemma raw_url_unchanged_witness :
  raw_url_of "https://raw.githubusercontent.com/org/repo/main/transformers.csv"
  = "https://raw.githubusercontent.com/org/repo/main/transformers.csv".
Proof. apply raw_url_unchanged; reflexivity. Defined.

(** ** [build_attribute_strategy_code]: failure and shape *)

(** X13. When the code list cannot be fetched (the read raises, or the
    table is empty), [build_attribute_strategy_code] fails for every
    strategy list and attribute table with the [TypeError] of subscripting
    [None]; the fetch error has been printed and no file is touched. *)
Theorem build_attribute_strategy_code_without_codes
    (read_csv : string -> result (list transformer_row)) (url : string)
    (strategies_list : list string) (attr_data_df : list attr_row) (w : world) :
  (read_csv (raw_url_of url) = Ok [] \/ exists e, read_csv (raw_url_of url) = Raise e) ->
  let out := build_attribute_strategy_code read_csv url strategies_list attr_data_df w in
  out.1 = Raise (TypeError "'NoneType' object is not subscriptable")
  /\ files out.2 = files w
  /\ exists line, stdout out.2 = (stdout w ++ [Printed line])%list.
Proof.
  intros H out. unfold out, build_attribute_strategy_code, fetch_csv_from_github.
  destruct H as [->|[e ->]]; simpl; repeat split; by eexists.
Qed.

Lemma build_attribute_strategy_code_without_codes_witness :
  (build_attribute_strategy_code (fun _ => Raise (LibraryError "HTTPError" "404"))
     "https://github.com/org/repo/blob/main/transformers.csv"
     ["S1"; "S2"] [mk_attr_row "S1" (Some "TX:A") []]
     {| stdout := []; files := ∅ |}).1
  = Raise (TypeError "'NoneType' object is not subscriptable").
Proof.
  apply (build_attribute_strategy_code_without_codes
           (fun _ => Raise (LibraryError "HTTPError" "404"))).
  right. by eexists.
Defined.

(** X14. Whenever the code list is fetched, the frame
    [build_attribute_strategy_code] returns is well shaped for every
    strategy list and attribute table: its strategy_code column is the
    strategy list itself, every row has one cell per code column, and every
    cell is 0 or 1. *)
Theorem build_attribute_strategy_code_shape
    (read_csv : string -> result (list transformer_row)) (url : string)
    (strategies_list : list string) (attr_data_df : list attr_row) (w : world)
    (transformer_df : list transformer_row) :
  read_csv (raw_url_of url) = Ok transformer_df -> transformer_df <> [] ->
  exists frame,
    (build_attribute_strategy_code read_csv url strategies_list attr_data_df w).1
    = Ok frame
    /\ columns frame = "strategy_code" :: get_default_transformation_codes transformer_df
    /\ map strategy_code_cell (rows frame) = strategies_list
    /\ Forall (fun r => S (length (cells r)) = length (columns frame)
                        /\ Forall (fun c => c = 0%Z \/ c = 1%Z) (cells r))
              (rows frame).
Proof.
  intros Hread Hne. unfold build_attribute_strategy_code, fetch_csv_from_github.
  rewrite Hread. destruct transformer_df as [|row rest]; [done|]. cbn [fst].
  eexists. split; [reflexivity|]. cbn [columns rows]. rewrite build_rows.
  split; [reflexivity|]. unfold indicator_rows. split.
  - rewrite map_map. cbn [strategy_code_cell]. apply map_id.
  - apply Forall_forall. intros r (s & <- & _)%list_elem_of_In%in_map_iff.
    cbn [cells]. split; [by rewrite length_map|].
    apply Forall_forall. intros c (code & <- & _)%list_elem_of_In%in_map_iff.
    destruct (applies attr_data_df s code); auto.
Qed.

Lemma build_attribute_strategy_code_shape_witness :
  exists frame,
    (build_attribute_strategy_code
       (fun _ => Ok [mk_transformer_row "TFR:A" []; mk_transformer_row "TFR:B" []])
       "https://github.com/org/repo/blob/main/transformers.csv"
       ["S1"; "S1"; "S2"] [mk_attr_row "S1" (Some "TX:B|TX:B") []]
       {| stdout := []; files := ∅ |}).1 = Ok frame
    /\ map strategy_code_cell (rows frame) = ["S1"; "S1"; "S2"].
Proof.
  destruct (build_attribute_strategy_code_shape
    (fun _ => Ok [mk_transformer_row "TFR:A" []; mk_transformer_row "TFR:B" []])
    "https://github.com/org/repo/blob/main/transformers.csv"
    ["S1"; "S1"; "S2"] [mk_attr_row "S1" (Some "TX:B|TX:B") []]
    {| stdout := []; files := ∅ |}
    [mk_transformer_row "TFR:A" []; mk_transformer_row "TFR:B" []]
    eq_refl ltac:(discriminate)) as (frame & H1 & _ & H3 & _).
  exists frame. split; [exact H1|exact H3].
Defined.

(** ** [get_default_transformation_codes]: length, prefix, well-formed codes *)

Lemma list_remove_length x l :
  existsb (String.eqb x) l = true -> S (length (list_remove x l)) = length l.
Proof.
  induction l as [|y l IH]; [done|]. simpl.
  rewrite (String.eqb_sym x y). destruct (String.eqb y x); [done|].
  simpl. intros H. by rewrite IH.
Qed.

Lemma filter_absent (x : string) (l : list string) :
  x ∉ l -> filter (fun y => y <> x) l = l.
Proof.
  induction l as [|y l IH]; [done|]. intros [Hy Hl]%not_elem_of_cons.
  rewrite filter_cons_True by done. f_equal. by apply IH.
Qed.

Lemma list_remove_absent (x : string) (l : list string) :
  existsb (String.eqb x) l = false -> x ∉ l.
Proof.
  intros H Hin. apply list_elem_of_In in Hin.
  assert (existsb (String.eqb x) l = true); [|congruence].
  apply existsb_exists. exists x. split; [done|apply String.eqb_refl].
Qed.

Lemma list_remove_NoDup x l :
  NoDup l -> list_remove x l = filter (fun y => y <> x) l.
Proof.
  induction l as [|y l IH]; [done|]. intros [Hy Hl]%NoDup_cons. simpl.
  destruct (String.eqb_spec y x) as [->|Hne].
  - rewrite filter_cons_False by (intros H; by apply H).
    symmetry. by apply filter_absent.
  - rewrite filter_cons_True by done. f_equal. by apply IH.
Qed.

(** X15. On a transformer table whose codes are distinct and well formed
    ("TFR:" followed by a name without a further "TFR:"),
    [get_default_transformation_codes] returns, in table order, the codes
    other than the sentinel "TFR:BASE", each with its "TFR:" prefix
    replaced by "TX:" and its name untouched; "TX:BASE" is not among
    them. *)
Theorem get_default_transformation_codes_well_formed
    (transformer_df : list transformer_row) :
  let codes := map transformer_code transformer_df in
  NoDup codes -> Forall well_formed_code codes ->
  get_default_transformation_codes transformer_df
  = map (fun code => "TX:" +:+ Py.drop 4 code)
        (filter (fun code => code <> "TFR:BASE") codes)
  /\ ~ In "TX:BASE" (get_default_transformation_codes transformer_df).
Proof.
  intros codes Hnd Hwf.
  assert (Hmap : forall l, Forall well_formed_code l ->
            map (Py.replace "TFR:" "TX:") l = map (fun code => "TX:" +:+ Py.drop 4 code) l).
  { intros l Hl. apply map_ext_Forall. eapply Forall_impl; [exact Hl|].
    intros code (name & -> & Hname). rewrite replace_prefix_only by done.
    reflexivity. }
  assert (Hfilter : Forall well_formed_code (filter (fun code => code <> "TFR:BASE") codes)).
  { apply Forall_forall. intros c [_ Hc]%list_elem_of_filter.
    revert c Hc. by apply Forall_forall. }
  assert (Heq : get_default_transformation_codes transformer_df
                = map (Py.replace "TFR:" "TX:")
                      (filter (fun code => code <> "TFR:BASE") codes)).
  { unfold get_default_transformation_codes. fold codes.
    destruct (existsb (String.eqb "TFR:BASE") codes) eqn:E.
    - by rewrite list_remove_NoDup.
    - by rewrite (filter_absent "TFR:BASE" codes) by (by apply list_remove_absent). }
  rewrite Heq, Hmap by exact Hfilter. split; [reflexivity|].
  intros (code & Hcode & Hin)%in_map_iff.
  apply list_elem_of_In, list_elem_of_filter in Hin as [Hne Hin].
  rewrite Forall_forall in Hwf. destruct (Hwf code Hin) as (name & -> & _).
  change (Py.drop 4 ("TFR:" +:+ name)) with name in Hcode. apply Hne.
  change ("TX:" +:+ name) with (String "T" (String "X" (String ":" name))) in Hcode.
  by injection Hcode as ->.
Qed.

Lemma get_default_transformation_codes_well_formed_witness :
  get_default_transformation_codes
    [mk_transformer_row "TFR:AGRC:DEC_CH4_RICE" []; mk_transformer_row "TFR:BASE" [];
     mk_transformer_row "TFR:WASO:INC_LANDFILLING" []]
  = ["TX:AGRC:DEC_CH4_RICE"; "TX:WASO:INC_LANDFILLING"].
Proof.
  refine (eq_trans (proj1 (get_default_transformation_codes_well_formed
    [mk_transformer_row "TFR:AGRC:DEC_CH4_RICE" []; mk_transformer_row "TFR:BASE" [];
     mk_transformer_row "TFR:WASO:INC_LANDFILLING" []] _ _)) _).
  - cbn [map transformer_code]. repeat (apply NoDup_cons; split);
      [| |by apply not_elem_of_nil|apply NoDup_nil; done];
      rewrite ?elem_of_cons, elem_of_nil; intros H; intuition discriminate.
  - cbn [map transformer_code]. repeat constructor.
    + exists "AGRC:DEC_CH4_RICE". by split.
    + exists "BASE". by split.
    + exists "WASO:INC_LANDFILLING". by split.
  - vm_compute. reflexivity.
Defined.

(** X16. For every transformer table, [get_default_transformation_codes]
    returns no code that starts with "TFR:" (so none equal to the
    sentinel), and it drops exactly one entry when the sentinel is present
    and none otherwise. *)
Theorem get_default_transformation_codes_general
    (transformer_df : list transformer_row) :
  let codes := map transformer_code transformer_df in
  let out := get_default_transformation_codes transformer_df in
  Forall (fun code => String.prefix "TFR:" code = false /\ code <> "TFR:BASE") out
  /\ length out
     = if existsb (String.eqb "TFR:BASE") codes
       then length codes - 1 else length codes.
Proof.
  intros codes out. split.
  - apply Forall_forall. intros code Hin%list_elem_of_In.
    pose proof (get_default_transformation_codes_no_TFR _ _ Hin) as H.
    split; [exact H|]. intros ->. discriminate H.
  - unfold out, get_default_transformation_codes. fold codes. rewrite length_map.
    destruct (existsb (String.eqb "TFR:BASE") codes) eqn:E; [|done].
    pose proof (list_remove_length _ _ E). lia.
Qed.

(** ** [load_parameters_from_yaml]: documents that are no mapping, extra keys *)

(** X17. A file that parses to something other than a mapping never
    loads: for a null document (an empty file), a boolean or a number the
    call fails with a [TypeError], not with the message naming missing
    keys; for a string or a list it fails either with that [ValueError] or,
    when the membership tests happen to pass, with a [TypeError]. *)
Theorem load_parameters_from_yaml_not_a_mapping
    (fs : string -> option string) (safe_load : string -> result yaml)
    (path content : string) (doc : yaml) :
  fs path = Some content -> safe_load content = Ok doc ->
  let load := load_parameters_from_yaml fs safe_load path in
  match doc with
  | YNull | YBool _ | YInt _ | YFloat _ => exists msg, load = Raise (TypeError msg)
  | YStr _ | YSeq _ =>
      exists msg, load = Raise (TypeError msg) \/ load = Raise (ValueError msg)
  | YMap _ => True
  end.
Proof.
  intros Hfs Hload load. unfold load, load_parameters_from_yaml, open_read.
  rewrite Hfs. cbn [rbind]. rewrite Hload. cbn [rbind].
  destruct doc as [| | | | s|items|entries];
    try exact I; try (eexists; reflexivity).
  - destruct (rfilter _ required_keys) as [[|k ks]|e] eqn:E; cbn [rbind try_except];
      [eexists; left; reflexivity | eexists; right; reflexivity
      | exfalso; discriminate E].
  - destruct (rfilter _ required_keys) as [[|k ks]|e] eqn:E; cbn [rbind try_except];
      [eexists; left; reflexivity | eexists; right; reflexivity
      | exfalso; discriminate E].
Qed.

Lemma load_parameters_from_yaml_not_a_mapping_witness :
  exists msg,
    load_parameters_from_yaml (fun _ => Some "") (fun _ => Ok YNull) "config.yaml"
    = Raise (TypeError msg).
Proof.
  apply (load_parameters_from_yaml_not_a_mapping
           (fun _ => Some "") (fun _ => Ok YNull) "config.yaml" "" YNull);
    reflexivity.
Defined.



(** ** [get_cols_to_keep] *)

Lemma strip_prefix_Some l s rest :
  Rx.strip_prefix l s = Some rest <-> s = l +:+ rest.
Proof.
  revert s. induction l as [|a l IH]; intros s; simpl.
  - rewrite app_empty_l. split; [by intros [= ->]|by intros ->].
  - destruct s as [|b s]; [by rewrite app_cons|].
    rewrite app_cons. destruct (Ascii.eqb_spec a b) as [->|Hne].
    + rewrite IH. split; [by intros ->|by intros [= ->]].
    + split; [done|]. intros [= H _]. by destruct Hne.
Qed.

Lemma rmatch_star p s :
  Rx.rmatch (Rx.DotStar :: p) s
  = Rx.rmatch p s
    || match s with
       | "" => false
       | String c s' =>
           if Ascii.eqb c (ascii_of_nat 10) then false
           else Rx.rmatch (Rx.DotStar :: p) s'
       end.
Proof. by destruct s. Qed.

(** The matcher finds a match exactly when one exists. *)
Lemma rmatch_denotes p s : Rx.rmatch p s = true <-> denotes p s.
Proof.
  revert s. induction p as [|[l|] p IH]; intros s.
  - by split.
  - cbn [Rx.rmatch denotes]. split.
    + destruct (Rx.strip_prefix l s) as [rest|] eqn:E; [|done].
      intros H. exists rest. split; [by apply strip_prefix_Some|by apply IH].
    + intros (rest & ->%strip_prefix_Some & H). by apply IH.
  - cbn [denotes]. split.
    + induction s as [|c s IHs]; rewrite rmatch_star.
      * rewrite orb_false_r. intros H. exists "", "". by split; [|split; [|apply IH]].
      * intros [H|H]%orb_true_iff.
        -- exists "", (String c s). by split; [|split; [|apply IH]].
        -- destruct (Ascii.eqb c (ascii_of_nat 10)) eqn:Ec; [done|].
           destruct (IHs H) as (mid & rest & -> & Hmid & Hrest).
           exists (String c mid), rest. split; [done|]. split; [|done].
           simpl. by rewrite Ec.
    + intros (mid & rest & -> & Hmid & Hrest). induction mid as [|c mid IHmid].
      * rewrite app_empty_l, rmatch_star. apply orb_true_iff. left. by apply IH.
      * simpl in Hmid. apply orb_false_iff in Hmid as [Hc Hmid].
        rewrite app_cons, rmatch_star, Hc. apply orb_true_iff. right. by apply IHmid.
Qed.

Lemma filter_filter {A} (f g : A -> bool) (l : list A) :
  List.filter g (List.filter f l) = List.filter (fun x => f x && g x) l.
Proof.
  induction l as [|x l IH]; [done|]. simpl.
  destruct (f x); simpl; [destruct (g x)|]; by rewrite IH.
Qed.

Lemma get_cols_to_keep_filter col_names :
  get_cols_to_keep col_names
  = List.filter (fun name => negb (excluded_column name)) col_names.
Proof.
  unfold get_cols_to_keep. rewrite !filter_filter. apply filter_ext.
  intros name. unfold excluded_column.
  destruct (Rx.rmatch furnace_gas_pattern name),
    (Rx.rmatch fuel_crude_pattern name),
    (Rx.rmatch fuel_electricity_pattern name); reflexivity.
Qed.

(** The three patterns, read as decompositions of the name. *)
Lemma patterns_decompose (name : string) :
  let newline_free s := has_char (ascii_of_nat 10) s = false in
  (Rx.rmatch furnace_gas_pattern name = true <->
   exists mid rest,
     name = "totalvalue" +:+ mid +:+ "furnace_gas" +:+ rest /\ newline_free mid)
  /\ (Rx.rmatch fuel_crude_pattern name = true <->
      exists mid1 mid2 rest,
        name = "totalvalue_" +:+ mid1 +:+ "_fuel_consumed_" +:+ mid2
               +:+ "_fuel_crude" +:+ rest
        /\ newline_free mid1 /\ newline_free mid2)
  /\ (Rx.rmatch fuel_electricity_pattern name = true <->
      exists mid1 mid2 rest,
        name = "totalvalue_" +:+ mid1 +:+ "_fuel_consumed_" +:+ mid2
               +:+ "_fuel_electricity" +:+ rest
        /\ newline_free mid1 /\ newline_free mid2).
Proof.
  intros newline_free. rewrite !rmatch_denotes.
  unfold furnace_gas_pattern, fuel_crude_pattern, fuel_electricity_pattern.
  cbn [denotes]. split; [|split].
  - split.
    + intros (r1 & -> & mid & r2 & -> & Hmid & rest & -> & _). by exists mid, rest.
    + intros (mid & rest & -> & Hmid). eexists. split; [reflexivity|].
      exists mid. eexists. split; [reflexivity|]. split; [done|]. by exists rest.
  - split.
    + intros (r1 & -> & mid1 & r2 & -> & H1 & r3 & -> & mid2 & r4 & -> & H2
              & rest & -> & _).
      by exists mid1, mid2, rest.
    + intros (mid1 & mid2 & rest & -> & H1 & H2). eexists. split; [reflexivity|].
      exists mid1. eexists. split; [reflexivity|]. split; [done|].
      eexists. split; [reflexivity|].
      exists mid2. eexists. split; [reflexivity|]. split; [done|]. by exists rest.
  - split.
    + intros (r1 & -> & mid1 & r2 & -> & H1 & r3 & -> & mid2 & r4 & -> & H2
              & rest & -> & _).
      by exists mid1, mid2, rest.
    + intros (mid1 & mid2 & rest & -> & H1 & H2). eexists. split; [reflexivity|].
      exists mid1. eexists. split; [reflexivity|]. split; [done|].
      eexists. split; [reflexivity|].
      exists mid2. eexists. split; [reflexivity|]. split; [done|]. by exists rest.
Qed.

(** X19. What the three patterns of [get_cols_to_keep] match: a name is
    hit by the first when it is "totalvalue", a newline-free stretch,
    "furnace_gas" and anything after; by the second (third) when it is
    "totalvalue_", a newline-free stretch, "_fuel_consumed_", a
    newline-free stretch, "_fuel_crude" ("_fuel_electricity") and anything
    after. The match is anchored at the start of the name and not at its
    end. *)
Theorem get_cols_to_keep_patterns (name : string) :
  let newline_free s := has_char (ascii_of_nat 10) s = false in
  (Rx.rmatch furnace_gas_pattern name = true <->
   exists mid rest,
     name = "totalvalue" +:+ mid +:+ "furnace_gas" +:+ rest /\ newline_free mid)
  /\ (Rx.rmatch fuel_crude_pattern name = true <->
      exists mid1 mid2 rest,
        name = "totalvalue_" +:+ mid1 +:+ "_fuel_consumed_" +:+ mid2
               +:+ "_fuel_crude" +:+ rest
        /\ newline_free mid1 /\ newline_free mid2)
  /\ (Rx.rmatch fuel_electricity_pattern name = true <->
      exists mid1 mid2 rest,
        name = "totalvalue_" +:+ mid1 +:+ "_fuel_consumed_" +:+ mid2
               +:+ "_fuel_electricity" +:+ rest
        /\ newline_free mid1 /\ newline_free mid2).
Proof. apply patterns_decompose. Qed.

(** X20. [get_cols_to_keep] is one filter: it returns, in their order and
    with their repetitions, the names that none of the three patterns
    matches. Hence its result is a sub-list of its input, a second
    application changes nothing, and it can be applied to a column list
    piece by piece. *)
Theorem get_cols_to_keep_filters (col_names more_names : list string) :
  get_cols_to_keep col_names
  = List.filter (fun name => negb (excluded_column name)) col_names
  /\ (forall name, In name (get_cols_to_keep col_names) <->
                   In name col_names /\ excluded_column name = false)
  /\ sublist (get_cols_to_keep col_names) col_names
  /\ get_cols_to_keep (get_cols_to_keep col_names) = get_cols_to_keep col_names
  /\ get_cols_to_keep (col_names ++ more_names)
     = (get_cols_to_keep col_names ++ get_cols_to_keep more_names)%list.
Proof.
  split; [apply get_cols_to_keep_filter|]. split; [|split; [|split]].
  - intros name. by rewrite get_cols_to_keep_filter, filter_In, negb_true_iff.
  - rewrite get_cols_to_keep_filter. induction col_names as [|x l IH]; [done|].
    simpl. destruct (negb (excluded_column x)).
    + by apply sublist_skip.
    + by apply sublist_cons.
  - rewrite !get_cols_to_keep_filter, filter_filter. apply filter_ext.
    intros name. by destruct (excluded_column name).
  - rewrite !get_cols_to_keep_filter. apply List.filter_app.
Qed.

(** X21. [get_cols_to_keep] only ever drops total-value columns of the
    named fuels: a dropped name starts with "totalvalue" and holds
    "furnace_gas", "_fuel_crude" or "_fuel_electricity"; a name that does
    not start with "totalvalue" is always kept. *)
Theorem get_cols_to_keep_dropped (name : string) :
  excluded_column name = true ->
  String.prefix "totalvalue" name = true
  /\ (Py.contains "furnace_gas" name = true
      \/ Py.contains "_fuel_crude" name = true
      \/ Py.contains "_fuel_electricity" name = true).
Proof.
  unfold excluded_column.
  destruct (patterns_decompose name) as (H1 & H2 & H3).
  intros [[H|H]%orb_true_iff|H]%orb_true_iff.
  - apply H1 in H as (mid & rest & -> & _). split; [by apply prefix_split; eexists|].
    left. apply (contains_later _ "totalvalue"), contains_later, contains_here.
  - apply H2 in H as (mid1 & mid2 & rest & -> & _).
    split; [apply prefix_split; by exists ("_" +:+ mid1 +:+ "_fuel_consumed_" +:+ mid2
                                           +:+ "_fuel_crude" +:+ rest)|].
    right. left. apply (contains_later _ "totalvalue_"), contains_later.
    apply (contains_later _ "_fuel_consumed_"), contains_later, contains_here.
  - apply H3 in H as (mid1 & mid2 & rest & -> & _).
    split; [apply prefix_split; by exists ("_" +:+ mid1 +:+ "_fuel_consumed_" +:+ mid2
                                           +:+ "_fuel_electricity" +:+ rest)|].
    right. right. apply (contains_later _ "totalvalue_"), contains_later.
    apply (contains_later _ "_fuel_consumed_"), contains_later, contains_here.
Qed.

Lemma get_cols_to_keep_dropped_witness :
  String.prefix "totalvalue" "totalvalue_enfu_fuel_consumed_inen_fuel_crude" = true.
Proof.
  apply (get_cols_to_keep_dropped "totalvalue_enfu_fuel_consumed_inen_fuel_crude").
  vm_compute. reflexivity.
Defined.

(** ** [build_strategy_cost_instructions] *)

(** X22. The instruction table and the indicator matrix built from the same
    strategy list are aligned row by row: both carry the strategy list as
    their strategy_code column, in the same order, whenever the matrix can
    be built; every instruction row carries the comparison code given and
    both evaluation flags set to 1. *)
Theorem build_strategy_cost_instructions_aligned {C : Type}
    (read_csv : string -> result (list transformer_row)) (url : string)
    (strategies_list : list string) (comparison : C)
    (attr_data_df : list attr_row) (w : world) (frame : strategy_frame) :
  (build_attribute_strategy_code read_csv url strategies_list attr_data_df w).1
  = Ok frame ->
  let instructions := build_strategy_cost_instructions strategies_list comparison in
  map instruction_strategy_code instructions = map strategy_code_cell (rows frame)
  /\ map instruction_strategy_code instructions = strategies_list
  /\ Forall (fun r => comparison_code r = comparison
                      /\ evaluate_system_costs r = 1%Z
                      /\ evaluate_transformation_costs r = 1%Z) instructions.
Proof.
  intros Hbuild instructions.
  assert (Hi : map instruction_strategy_code instructions = strategies_list).
  { unfold instructions, build_strategy_cost_instructions. rewrite map_map.
    apply map_id. }
  assert (Hf : map strategy_code_cell (rows frame) = strategies_list).
  { revert Hbuild. unfold build_attribute_strategy_code, fetch_csv_from_github.
    destruct (read_csv (raw_url_of url)) as [[|row rest]|e]; simpl; try done.
    intros [= <-]. cbn [rows]. rewrite build_rows. unfold indicator_rows.
    rewrite map_map. apply map_id. }
  split; [by rewrite Hi, Hf|]. split; [exact Hi|].
  apply Forall_forall. intros r (s & <- & _)%list_elem_of_In%in_map_iff. done.
Qed.

Lemma build_strategy_cost_instructions_aligned_witness :
  map instruction_strategy_code (build_strategy_cost_instructions ["S1"; "S2"] "BASE")
  = ["S1"; "S2"].
Proof.
  refine (proj1 (proj2 (build_strategy_cost_instructions_aligned
    (fun _ => Ok [mk_transformer_row "TFR:A" []])
    "https://github.com/org/repo/blob/main/transformers.csv"
    ["S1"; "S2"] "BASE" [] {| stdout := []; files := ∅ |}
    (mk_strategy_frame ["strategy_code"; "TX:A"]
       [mk_strategy_row "S1" [0%Z]; mk_strategy_row "S2" [0%Z]]) _))).
  vm_compute. reflexivity.
Defined.

(** ** Cleaning the attribute table before it is checked and encoded *)

Lemma remove_suffix_Ok_rows df out :
  remove_suffix_from_transformations df = Ok out ->
  Forall (fun r => is_Some (transformation_specification r)) df
  /\ out = map cleaned_row df.
Proof.
  intros H.
  assert (Hs : Forall (fun r => is_Some (transformation_specification r)) df).
  { apply Forall_forall. intros r Hr.
    destruct (transformation_specification r) as [s|] eqn:E; [by eexists|].
    rewrite remove_suffix_some_nan in H; [discriminate H|].
    apply Exists_exists. by exists r. }
  split; [exact Hs|]. rewrite (remove_suffix_all_specified df Hs) in H.
  by injection H.
Qed.

Lemma filter_cleaned_rows s df :
  filter (fun r => attr_strategy_code r = s) (map cleaned_row df)
  = map cleaned_row (filter (fun r => attr_strategy_code r = s) df).
Proof.
  induction df as [|r df IH]; [done|]. cbn [map]. rewrite !filter_cons.
  change (attr_strategy_code (cleaned_row r)) with (attr_strategy_code r).
  destruct (decide (attr_strategy_code r = s)); cbn [map]; by rewrite IH.
Qed.

(** X23. Cleaning composes with the check and with the encoding. On a
    table [remove_suffix_from_transformations] accepts, the tokens used by
    the cleaned table are the cleaned tokens of the original table, the
    specification read for a strategy is the cleaned one of the original,
    and a strategy applies a code in the cleaned table exactly when one of
    its original tokens cleans to that code. *)
Theorem cleaned_table_tokens (df out : list attr_row) :
  remove_suffix_from_transformations df = Ok out ->
  (forall t, used_token out t <-> exists t0, used_token df t0 /\ clean_token t0 = t)
  /\ (forall s, strategy_specification out s
                = option_map clean_transformation_specification
                             (strategy_specification df s))
  /\ (forall s code,
        applies out s code = true <->
        exists spec t0, strategy_specification df s = Some spec
                        /\ In t0 (Py.split pipe spec) /\ clean_token t0 = code).
Proof.
  intros [Hsome ->]%remove_suffix_Ok_rows.
  assert (Hspec : forall s,
            strategy_specification (map cleaned_row df) s
            = option_map clean_transformation_specification
                         (strategy_specification df s)).
  { intros s. unfold strategy_specification. rewrite filter_cleaned_rows.
    destruct (filter (fun r => attr_strategy_code r = s) df) as [|first rest] eqn:E;
      [done|]. reflexivity. }
  split; [|split; [exact Hspec|]].
  - intros t. unfold used_token. split.
    + intros (r' & spec' & (r & <- & Hr)%in_map_iff & Hspec' & Ht).
      unfold cleaned_row in Hspec'. cbn [set_specification transformation_specification]
        in Hspec'.
      destruct (transformation_specification r) as [spec|] eqn:E; [|done].
      injection Hspec' as <-. rewrite split_clean_specification in Ht.
      apply in_map_iff in Ht as (t0 & <- & Ht0). exists t0. split; [|done].
      by exists r, spec.
    + intros (t0 & (r & spec & Hr & Hs & Ht0) & <-).
      exists (cleaned_row r), (clean_transformation_specification spec).
      split; [by apply in_map|]. split.
      * unfold cleaned_row. cbn [set_specification transformation_specification].
        by rewrite Hs.
      * rewrite split_clean_specification. by apply in_map.
  - intros s code. rewrite applies_iff, Hspec. split.
    + intros (spec' & Hs & Hc).
      destruct (strategy_specification df s) as [spec|]; [|done].
      injection Hs as <-. rewrite split_clean_specification in Hc.
      apply in_map_iff in Hc as (t0 & <- & Ht0). by exists spec, t0.
    + intros (spec & t0 & -> & Ht0 & <-).
      exists (clean_transformation_specification spec). split; [done|].
      rewrite split_clean_specification. by apply in_map.
Qed.

Lemma cleaned_table_tokens_witness :
  applies [mk_attr_row "S1" (Some "TX:A") []; mk_attr_row "S2" (Some "TX:B|TX:C") []]
          "S1" "TX:A" = true.
Proof.
  apply (proj2 (proj2 (cleaned_table_tokens
    [mk_attr_row "S1" (Some "TX:A_HIGHEST") []; mk_attr_row "S2" (Some "TX:B|TX:C_LOW") []]
    [mk_attr_row "S1" (Some "TX:A") []; mk_attr_row "S2" (Some "TX:B|TX:C") []]
    ltac:(vm_compute; reflexivity)))).
  exists "TX:A_HIGHEST", "TX:A_HIGHEST". split; [reflexivity|].
  split; [by left|]. vm_compute. reflexivity.
Defined.
